(** * fulltext_to_markdown: a shallow embedding of the Zotero full-text exporter

    The program under study is the command line script
    [src/fulltext_to_markdown.py].  It validates its arguments, prompts for
    the missing ones, asks three external collaborators for a table of paper
    records and writes one markdown file per record that carries a full text.

    The embedding follows the script function by function.  Python values,
    strings and paths are modelled first, then a small file system, then the
    state-and-exception monad in which the four functions of the script
    ([validate_args], [get_interactive_input], [process_papers], [main]) are
    written, and finally the properties. *)

From Stdlib Require Import Ascii String.
From stdpp Require Import gmap strings list fin_maps pretty.

Open Scope string_scope.
Open Scope list_scope.

(** ** Python strings

    A [string] is read as a sequence of code points in the range
    U+0000..U+00FF.  [py_isspace] is [str.isspace] restricted to that range:
    TAB..CR, the four separators FS..US, SPACE, NEL and NBSP. *)

Module PyStr.

Definition py_isspace (c : ascii) : bool :=
  let n := N_of_ascii c in
  (((9 <=? n) && (n <=? 13)) || ((28 <=? n) && (n <=? 32))
   || (n =? 133) || (n =? 160))%N.

(** [s.lstrip()] *)
Fixpoint lstrip (s : string) : string :=
  match s with
  | EmptyString => EmptyString
  | String c s' => if py_isspace c then lstrip s' else s
  end.

(** [s.rstrip()] *)
Fixpoint rstrip (s : string) : string :=
  match s with
  | EmptyString => EmptyString
  | String c s' =>
      match rstrip s' with
      | EmptyString => if py_isspace c then EmptyString else String c EmptyString
      | r => String c r
      end
  end.

(** [s.strip()] *)
Definition strip (s : string) : string := rstrip (lstrip s).

(** [bool(s)]: a string is truthy when it is not empty. *)
Definition truthy (s : string) : bool :=
  match s with EmptyString => false | String _ _ => true end.

(** [bool(o)] for a value that is [None] or a string. *)
Definition truthy_opt (o : option string) : bool :=
  match o with None => false | Some s => truthy s end.

(** Some character of [s] is not white space. *)
Fixpoint has_nonspace (s : string) : bool :=
  match s with
  | EmptyString => false
  | String c s' => negb (py_isspace c) || has_nonspace s'
  end.

Definition nl : string := String (ascii_of_nat 10) EmptyString.

End PyStr.
Import PyStr.

(** ** Python values found in a cell of the result table

    A cell holds a string or one of the two missing-value markers of pandas,
    [None] and the float [nan]. *)

Inductive pyval : Type :=
| VStr (s : string)
| VNone
| VNaN.

(** [str(v)], which is what an f-string field [{v}] expands to. *)
Definition py_str (v : pyval) : string :=
  match v with
  | VStr s => s
  | VNone => "None"
  | VNaN => "nan"
  end.

(** [isinstance(v, str)] *)
Definition is_str (v : pyval) : bool :=
  match v with VStr _ => true | _ => false end.

(** ** Exceptions

    [KeyboardInterrupt] and [SystemExit] derive from [BaseException] only;
    every other constructor stands for a subclass of [Exception]. *)

Inductive exn : Type :=
| KeyboardInterrupt
| SystemExit (code : Z)
| OSError (errno : Z) (strerror : string)
| EOFError
| KeyError (key : string)
| OtherException (msg : string).

Definition is_KeyboardInterrupt (e : exn) : bool :=
  match e with KeyboardInterrupt => true | _ => false end.

Definition is_Exception (e : exn) : bool :=
  match e with
  | KeyboardInterrupt | SystemExit _ => false
  | _ => true
  end.

Definition is_OSError (e : exn) : bool :=
  match e with OSError _ _ => true | _ => false end.

(** [str(e)], as interpolated in the log messages.  For an [OSError] the
    trailing file name that CPython appends is left out. *)
Definition exn_str (e : exn) : string :=
  match e with
  | KeyboardInterrupt => ""
  | SystemExit code => pretty code
  | OSError errno strerror => "[Errno " +:+ pretty errno +:+ "] " +:+ strerror
  | EOFError => "EOF when reading a line"
  | KeyError key => "'" +:+ key +:+ "'"
  | OtherException msg => msg
  end.

Definition ENOENT : exn := OSError 2 "No such file or directory".
Definition EEXIST : exn := OSError 17 "File exists".
Definition ENOTDIR : exn := OSError 20 "Not a directory".
Definition EISDIR : exn := OSError 21 "Is a directory".

(** ** Paths ([pathlib.Path], POSIX flavour)

    A path is a flag telling whether it is anchored at the root and the list
    of its components.  Parsing splits at every slash and drops the empty
    components and the single dots, as [pathlib] does.  A component [..] is
    kept as it is and is not interpreted by the file system below. *)

Module PyPath.

Record pypath : Type := mkPath { absolute : bool; parts : list string }.

Fixpoint split_slash (s : string) : list string :=
  match s with
  | EmptyString => [EmptyString]
  | String c s' =>
      if Ascii.eqb c "/" then EmptyString :: split_slash s'
      else match split_slash s' with
           | h :: t => String c h :: t
           | [] => [String c EmptyString]
           end
  end.

Definition keep_component (x : string) : bool :=
  negb (String.eqb x "") && negb (String.eqb x ".").

Definition starts_with_slash (s : string) : bool :=
  match s with
  | String c _ => Ascii.eqb c "/"
  | EmptyString => false
  end.

(** [Path(s)] *)
Definition Path (s : string) : pypath :=
  {| absolute := starts_with_slash s;
     parts := List.filter keep_component (split_slash s) |}.

(** [p / s]: an anchored right operand replaces the left one. *)
Definition path_div (p : pypath) (s : string) : pypath :=
  let q := Path s in
  if absolute q then q
  else {| absolute := absolute p; parts := parts p ++ parts q |}.

Fixpoint join_slash (l : list string) : string :=
  match l with
  | [] => ""
  | [x] => x
  | x :: l' => x +:+ "/" +:+ join_slash l'
  end.

(** [str(p)] *)
Definition path_str (p : pypath) : string :=
  if absolute p then "/" +:+ join_slash (parts p)
  else match parts p with
       | [] => "."
       | l => join_slash l
       end.

(** No slash occurs in [s]. *)
Fixpoint no_slash (s : string) : bool :=
  match s with
  | EmptyString => true
  | String c s' => negb (Ascii.eqb c "/") && no_slash s'
  end.

End PyPath.
Import PyPath.

(** ** The file system

    A tree of directories and regular files, stored flat: the key of a node is
    the list of components that leads to it from the root.  The root itself
    is a directory and has no entry.  Every operation walks the path from the
    root, so a node is only reachable through directories. *)

Module FileSystem.

Inductive node : Type :=
| Dir
| File (content : string).

Record FS : Type := mkFS {
  fs_cwd : list string;
  fs_nodes : gmap (list string) node
}.

(** The key of [p]: a relative path is taken from the working directory. *)
Definition locate (fs : FS) (p : pypath) : list string :=
  if absolute p then parts p else fs_cwd fs ++ parts p.

(** Walks [comps] below [pre]; every step must be a directory.  The first
    step that is missing gives ENOENT, the first that is a file ENOTDIR. *)
Fixpoint dir_error (nodes : gmap (list string) node) (pre comps : list string)
  : option exn :=
  match comps with
  | [] => None
  | c :: cs =>
      match nodes !! (pre ++ [c]) with
      | Some Dir => dir_error nodes (pre ++ [c]) cs
      | Some (File _) => Some ENOTDIR
      | None => Some ENOENT
      end
  end.

(** [os.stat] on a key. *)
Definition stat (nodes : gmap (list string) node) (k : list string)
  : exn + node :=
  match k with
  | [] => inr Dir
  | _ =>
      match dir_error nodes [] (removelast k) with
      | Some e => inl e
      | None =>
          match nodes !! k with
          | Some n => inr n
          | None => inl ENOENT
          end
      end
  end.

(** [p.exists()].  In this file system [os.stat] fails with ENOENT or
    ENOTDIR only, both of which [exists] turns into [False]; the errors it
    would re-raise (a name that is too long, for one) do not arise here. *)
Definition path_exists (fs : FS) (p : pypath) : bool :=
  match stat (fs_nodes fs) (locate fs p) with
  | inr _ => true
  | inl _ => false
  end.

(** [p.is_dir()] *)
Definition path_is_dir (fs : FS) (p : pypath) : bool :=
  match stat (fs_nodes fs) (locate fs p) with
  | inr Dir => true
  | _ => false
  end.

(** The content of the regular file at [p], if there is one. *)
Definition read_file (fs : FS) (p : pypath) : option string :=
  match stat (fs_nodes fs) (locate fs p) with
  | inr (File c) => Some c
  | _ => None
  end.

(** Creates the directories of [comps] below [pre], top down. *)
Fixpoint makedirs (nodes : gmap (list string) node) (pre comps : list string)
  : exn + gmap (list string) node :=
  match comps with
  | [] => inr nodes
  | c :: cs =>
      let q := pre ++ [c] in
      match nodes !! q with
      | Some Dir => makedirs nodes q cs
      | Some (File _) => inl (match cs with [] => EEXIST | _ => ENOTDIR end)
      | None => makedirs (<[q := Dir]> nodes) q cs
      end
  end.

(** [p.mkdir(parents=True, exist_ok=True)] *)
Definition mkdir_parents (fs : FS) (p : pypath) : exn + FS :=
  match makedirs (fs_nodes fs) [] (locate fs p) with
  | inl e => inl e
  | inr nodes => inr {| fs_cwd := fs_cwd fs; fs_nodes := nodes |}
  end.

(** [open(p, 'w')]: the file is created, or truncated when it exists.  The
    file system has no limit on the length of a name, no permissions and no
    read-only mounts: an open fails only on a missing or non-directory
    parent, or on a target that is a directory. *)
Definition open_w (fs : FS) (p : pypath) : exn + FS :=
  let k := locate fs p in
  match k with
  | [] => inl EISDIR
  | _ =>
      match dir_error (fs_nodes fs) [] (removelast k) with
      | Some e => inl e
      | None =>
          match fs_nodes fs !! k with
          | Some Dir => inl EISDIR
          | _ => inr {| fs_cwd := fs_cwd fs;
                        fs_nodes := <[k := File ""]> (fs_nodes fs) |}
          end
      end
  end.

(** [f.write(text)] followed by the close of the [with] block, on the file
    that [open_w] has just truncated. *)
Definition write_text (fs : FS) (p : pypath) (text : string) : FS :=
  {| fs_cwd := fs_cwd fs;
     fs_nodes := <[locate fs p := File text]> (fs_nodes fs) |}.

End FileSystem.
Import FileSystem.

(** ** The result table ([pandas])

    A row handed out by [iterrows] is a [Series]: the column labels paired
    with the cells of the row, in column order.  Column labels are taken to
    be distinct, so that [paper[label]] is a cell and not a sub-series. *)

Module Pandas.

Definition Series : Type := list (string * pyval).

(** [label in paper] *)
Fixpoint series_contains (label : string) (paper : Series) : bool :=
  match paper with
  | [] => false
  | (l, _) :: rest => String.eqb l label || series_contains label rest
  end.

(** [paper[label]] *)
Fixpoint series_getitem (label : string) (paper : Series) : exn + pyval :=
  match paper with
  | [] => inl (KeyError label)
  | (l, v) :: rest =>
      if String.eqb l label then inr v else series_getitem label rest
  end.

(** [paper.get(label, default)] *)
Definition series_get (label : string) (default : pyval) (paper : Series)
  : pyval :=
  match series_getitem label paper with
  | inr v => v
  | inl _ => default
  end.

Record DataFrame : Type := mkDataFrame {
  df_columns : list string;
  df_rows : list (Z * list pyval)
}.

(** [df.empty]: one of the two axes has length zero. *)
Definition df_empty (df : DataFrame) : bool :=
  match df_columns df, df_rows df with
  | [], _ | _, [] => true
  | _, _ => false
  end.

(** [len(df)] *)
Definition df_len (df : DataFrame) : nat := length (df_rows df).

(** [df.iterrows()] *)
Definition iterrows (df : DataFrame) : list (Z * Series) :=
  map (fun row => (fst row, zip (df_columns df) (snd row))) (df_rows df).

End Pandas.
Import Pandas.

(** ** The resolved command line ([argparse.Namespace]) *)

Record Args : Type := mkArgs {
  zotero_api_key : option string;
  zotero_library_id : option string;
  zotero_collection_key : option string;
  zotero_library_type : string;
  obsidian_directory : option string;
  dry_run : bool;
  verbose : bool
}.

(** ** The external collaborators ([syslira_tools])

    The three classes are outside the repository.  What the script observes
    of them is whether a call returns or raises, and what it returns. *)

Record Collab : Type := mkCollab {
  (** [ZoteroClient(api_key, library_id, library_type=...)] and [.init()] *)
  ZoteroClient_init : option string -> option string -> string -> exn + unit;
  (** [OpenAlexClient()] and [.init()] *)
  OpenAlexClient_init : exn + unit;
  (** [PaperLibrary(..., collection_key=...)] *)
  PaperLibrary_new : option string -> exn + unit;
  (** [paper_library.sync_zotero_collection()] *)
  sync_zotero_collection : exn + string;
  (** [paper_library.get_library_df()] *)
  get_library_df : exn + DataFrame
}.

Inductive call : Type :=
| CallZoteroClient (api_key library_id : option string) (library_type : string)
| CallOpenAlexClient
| CallPaperLibrary (collection_key : option string)
| CallSync
| CallGetLibraryDf.

Definition is_sync_call (c : call) : bool :=
  match c with CallSync => true | _ => false end.

(** ** The state of a run *)

Inductive level : Type := INFO | WARNING | ERROR.

Inductive output : Type :=
| Log (lvl : level) (msg : string)
| Traceback (e : exn).

(** What the terminal delivers to a blocking [input] or [getpass]. *)
Inductive console_event : Type :=
| Line (s : string)
| CtrlC
| EndOfInput.

Record State : Type := mkState {
  st_fs : FS;
  st_stdin : list console_event;
  st_log : list output;
  st_sinks : nat;
  st_calls : list call
}.

Definition set_fs (fs : FS) (st : State) : State :=
  {| st_fs := fs; st_stdin := st_stdin st; st_log := st_log st;
     st_sinks := st_sinks st; st_calls := st_calls st |}.

Definition set_stdin (l : list console_event) (st : State) : State :=
  {| st_fs := st_fs st; st_stdin := l; st_log := st_log st;
     st_sinks := st_sinks st; st_calls := st_calls st |}.

Definition add_log (o : output) (st : State) : State :=
  {| st_fs := st_fs st; st_stdin := st_stdin st; st_log := st_log st ++ [o];
     st_sinks := st_sinks st; st_calls := st_calls st |}.

Definition add_sink (st : State) : State :=
  {| st_fs := st_fs st; st_stdin := st_stdin st; st_log := st_log st;
     st_sinks := S (st_sinks st); st_calls := st_calls st |}.

Definition add_call (c : call) (st : State) : State :=
  {| st_fs := st_fs st; st_stdin := st_stdin st; st_log := st_log st;
     st_sinks := st_sinks st; st_calls := st_calls st ++ [c] |}.

(** ** The monad: a state, and a result that is a value or a raised
    exception *)

Definition M (A : Type) : Type := State -> (exn + A) * State.

#[global] Instance M_ret : MRet M := fun A a st => (inr a, st).

#[global] Instance M_bind : MBind M := fun A B k m st =>
  match m st with
  | (inr a, st') => k a st'
  | (inl e, st') => (inl e, st')
  end.

Definition raise {A : Type} (e : exn) : M A := fun st => (inl e, st).

(** [sys.exit(code)] *)
Definition sys_exit {A : Type} (code : Z) : M A := raise (SystemExit code).

(** A value or an exception computed outside the monad. *)
Definition lift {A : Type} (r : exn + A) : M A := fun st => (r, st).

(** [try: body except C1 as e: h1 except C2 as e: h2 ...]: the first clause
    whose class matches handles the exception; what a handler raises is not
    offered to the other clauses. *)
Fixpoint select_clause {A : Type} (clauses : list ((exn -> bool) * (exn -> M A)))
  (e : exn) : option (exn -> M A) :=
  match clauses with
  | [] => None
  | (matches, handler) :: rest =>
      if matches e then Some handler else select_clause rest e
  end.

Definition try_except {A : Type} (body : M A)
  (clauses : list ((exn -> bool) * (exn -> M A))) : M A := fun st =>
  match body st with
  | (inr a, st') => (inr a, st')
  | (inl e, st') =>
      match select_clause clauses e with
      | Some handler => handler e st'
      | None => (inl e, st')
      end
  end.

Definition get_fs : M FS := fun st => (inr (st_fs st), st).

(** [logger.info], [logger.warning], [logger.error] *)
Definition logger (lvl : level) (msg : string) : M unit :=
  fun st => (inr tt, add_log (Log lvl msg) st).

(** [traceback.print_exc()] *)
Definition print_exc (e : exn) : M unit :=
  fun st => (inr tt, add_log (Traceback e) st).

(** [logger.add(sys.stderr, level="DEBUG")] *)
Definition logger_add : M unit := fun st => (inr tt, add_sink st).

(** [input(prompt)] and [getpass(prompt)]: block until the terminal delivers
    a line, an interrupt or the end of the input. *)
Definition input : M string := fun st =>
  match st_stdin st with
  | Line s :: rest => (inr s, set_stdin rest st)
  | CtrlC :: rest => (inl KeyboardInterrupt, set_stdin rest st)
  | EndOfInput :: rest => (inl EOFError, set_stdin rest st)
  | [] => (inl EOFError, st)
  end.

Definition getpass : M string := input.

(** A call to a collaborator: it is recorded, then returns or raises. *)
Definition external {A : Type} (c : call) (r : exn + A) : M A :=
  fun st => (r, add_call c st).

(** [obsidian_path.mkdir(parents=True, exist_ok=True)] *)
Definition mkdir (p : pypath) : M unit := fun st =>
  match mkdir_parents (st_fs st) p with
  | inl e => (inl e, st)
  | inr fs => (inr tt, set_fs fs st)
  end.

(** [with open(p, 'w', encoding='utf-8') as f: f.write(text)] *)
Definition open_and_write (p : pypath) (text : string) : M unit := fun st =>
  match open_w (st_fs st) p with
  | inl e => (inl e, st)
  | inr fs => (inr tt, set_fs (write_text fs p text) st)
  end.

(** ** Sample data: a sanitizer, a file system, a result table, a run

    [demo_sanitize] stands in for the external sanitizer in the examples: it
    drops the slashes of a string title and rejects any other value. *)

Module Demo.

Fixpoint drop_slashes (s : string) : string :=
  match s with
  | EmptyString => EmptyString
  | String c s' =>
      if Ascii.eqb c "/" then drop_slashes s'
      else String c (drop_slashes s')
  end.

Definition demo_sanitize (v : pyval) : exn + string :=
  match v with
  | VStr s => inr (drop_slashes s)
  | _ => inl (OtherException "text must be a string")
  end.

(** [/home] (the working directory), [/tmp], [/tmp/out] and the regular file
    [/tmp/notes]. *)
Definition demo_fs : FS :=
  {| fs_cwd := ["home"];
     fs_nodes := <[ ["tmp"; "notes"] := File "x" ]>
                 (<[ ["tmp"; "out"] := Dir ]>
                 (<[ ["tmp"] := Dir ]>
                 (<[ ["home"] := Dir ]> ∅))) |}.

Definition demo_state (stdin : list console_event) : State :=
  {| st_fs := demo_fs; st_stdin := stdin; st_log := [];
     st_sinks := 1; st_calls := [] |}.

(** The result table of the scenario of the specification. *)
Definition demo_df : DataFrame :=
  {| df_columns := ["title"; "fulltext"];
     df_rows := [(0%Z, [VStr "Paper A"; VStr "Body A"]);
                 (1%Z, [VStr "Paper B"; VStr ""])] |}.

Definition paper_a : Z * Series :=
  (0%Z, [("title", VStr "Paper A"); ("fulltext", VStr "Body A")]).

Definition paper_b : Z * Series :=
  (1%Z, [("title", VStr "Paper B"); ("fulltext", VStr "")]).

Definition demo_world (sync : exn + string) (df : exn + DataFrame) : Collab :=
  {| ZoteroClient_init := fun _ _ _ => inr tt;
     OpenAlexClient_init := inr tt;
     PaperLibrary_new := fun _ => inr tt;
     sync_zotero_collection := sync;
     get_library_df := df |}.

Definition demo_args (api_key directory : option string) (library_type : string)
  (dry : bool) : Args :=
  {| zotero_api_key := api_key;
     zotero_library_id := Some "4711";
     zotero_collection_key := Some "ABCD1234";
     zotero_library_type := library_type;
     obsidian_directory := directory;
     dry_run := dry;
     verbose := false |}.

End Demo.

(** More sample data, for the further properties. *)

Module Samples.
Import Demo.

(** A sanitizer that always fails on the operating-system side. *)
Definition failing_sanitize (v : pyval) : exn + string :=
  inl (OSError 36 "File name too long").

Definition nothing_supplied : Args :=
  {| zotero_api_key := None;
     zotero_library_id := None;
     zotero_collection_key := None;
     zotero_library_type := "user";
     obsidian_directory := None;
     dry_run := false;
     verbose := false |}.

Definition no_zotero : Collab :=
  {| ZoteroClient_init := fun _ _ _ => inl (OtherException "Invalid API key");
     OpenAlexClient_init := inr tt;
     PaperLibrary_new := fun _ => inr tt;
     sync_zotero_collection := inr "synced";
     get_library_df := inr demo_df |}.

Definition untitled : Z * Series := (0%Z, [("fulltext", VStr "Body")]).

Definition nan_title : Z * Series :=
  (0%Z, [("title", VNaN); ("fulltext", VStr "Body")]).

Definition paper_a_again : Z * Series :=
  (2%Z, [("title", VStr "Paper /A"); ("fulltext", VStr "Second body")]).

End Samples.

(** ** The script *)

Section Script.

(** [pathvalidate.sanitize_filename] is an external library function: it
    returns a file name or raises. *)
Variable sanitize_filename : pyval -> exn + string.

(** [args.zotero_library_type not in ["user", "group"]] *)
Definition invalid_library_type (t : string) : bool :=
  negb (String.eqb t "user" || String.eqb t "group").

(** [validate_args(args)] *)
Definition validate_args (args : Args) : M unit :=
  (if invalid_library_type (zotero_library_type args) then
     logger ERROR ("Invalid library type: " +:+ zotero_library_type args
                   +:+ ". Must be 'user' or 'group'.");;
     sys_exit 1
   else mret tt);;
  match obsidian_directory args with
  | Some d =>
      if truthy d then
        let obsidian_path := Path d in
        fs ← get_fs;
        if negb (path_exists fs obsidian_path) then
          try_except
            (mkdir obsidian_path;;
             logger INFO ("Created directory: " +:+ d))
            [(is_OSError, fun e =>
                logger ERROR ("Cannot create directory " +:+ d +:+ ": "
                              +:+ exn_str e);;
                sys_exit 1)]
        else if negb (path_is_dir fs obsidian_path) then
          logger ERROR (d +:+ " exists but is not a directory");;
          sys_exit 1
        else mret tt
      else mret tt
  | None => mret tt
  end.

(** [get_interactive_input(args)]; the namespace it mutates is returned. *)
Definition get_interactive_input (args : Args) : M Args :=
  api_key ←
    (if negb (truthy_opt (zotero_api_key args)) then
       k ← getpass;
       if negb (truthy (strip k)) then
         logger ERROR "Zotero API key is required";;
         sys_exit 1
       else mret (Some k)
     else mret (zotero_api_key args));
  library_id ←
    (if negb (truthy_opt (zotero_library_id args)) then
       l ← input;
       let l := strip l in
       if negb (truthy l) then
         logger ERROR "Zotero library ID is required";;
         sys_exit 1
       else mret (Some l)
     else mret (zotero_library_id args));
  collection_key ←
    (if negb (truthy_opt (zotero_collection_key args)) then
       c ← input;
       let c := strip c in
       if negb (truthy c) then
         logger ERROR "Zotero collection key is required";;
         sys_exit 1
       else mret (Some c)
     else mret (zotero_collection_key args));
  directory ←
    (if negb (truthy_opt (obsidian_directory args)) then
       obsidian_input ← input;
       let obsidian_input := strip obsidian_input in
       mret (if truthy obsidian_input then Some obsidian_input else None)
     else mret (obsidian_directory args));
  mret {| zotero_api_key := api_key;
          zotero_library_id := library_id;
          zotero_collection_key := collection_key;
          zotero_library_type := zotero_library_type args;
          obsidian_directory := directory;
          dry_run := dry_run args;
          verbose := verbose args |}.

(** The test of the loop body:
    ['fulltext' in paper and isinstance(paper['fulltext'], str)
     and paper['fulltext'].strip()]. *)
Definition has_fulltext (paper : Series) : bool :=
  series_contains "fulltext" paper
  && match series_getitem "fulltext" paper with
     | inr (VStr s) => truthy (strip s)
     | _ => false
     end.

(** [f"# {paper['title']}\n\n{fulltext}"] *)
Definition markdown_text (title : pyval) (fulltext : string) : string :=
  "# " +:+ py_str title +:+ nl +:+ nl +:+ fulltext.

(** [Path(obsidian_directory) / f"{paper_title_sanitized}.md"] *)
Definition file_path (directory : string) (paper_title_sanitized : string)
  : pypath :=
  path_div (Path directory) (paper_title_sanitized +:+ ".md").

(** One iteration of the loop of [process_papers]; the counter is threaded
    through. *)
Definition process_paper (directory : option string) (row : Z * Series)
  (processed_count : nat) : M nat :=
  let paper_index := fst row in
  let paper := snd row in
  if has_fulltext paper then
    fulltext ← lift (series_getitem "fulltext" paper);
    title ← lift (series_getitem "title" paper);
    let text := markdown_text title (py_str fulltext) in
    match directory with
    | Some d =>
        if truthy d then
          try_except
            (title ← lift (series_getitem "title" paper);
             paper_title_sanitized ← lift (sanitize_filename title);
             let path := file_path d paper_title_sanitized in
             open_and_write path text;;
             title ← lift (series_getitem "title" paper);
             logger INFO ("Saved fulltext of paper '" +:+ py_str title
                          +:+ "' to " +:+ path_str path);;
             mret (processed_count + 1))
            [(is_OSError, fun e =>
                title ← lift (series_getitem "title" paper);
                logger ERROR ("Failed to save paper '" +:+ py_str title
                              +:+ "': " +:+ exn_str e);;
                mret processed_count)]
        else
          title ← lift (series_getitem "title" paper);
          logger INFO ("Would process paper '" +:+ py_str title
                       +:+ "' (no output directory specified)");;
          mret (processed_count + 1)
    | None =>
        title ← lift (series_getitem "title" paper);
        logger INFO ("Would process paper '" +:+ py_str title
                     +:+ "' (no output directory specified)");;
        mret (processed_count + 1)
    end
  else
    logger WARNING
      ("No fulltext found for paper '"
       +:+ py_str (series_get "title" (VStr ("#" +:+ pretty paper_index)) paper)
       +:+ "'");;
    mret processed_count.

(** [for paper_index, paper in paper_library_df.iterrows(): ...] *)
Fixpoint process_rows (directory : option string) (rows : list (Z * Series))
  (processed_count : nat) : M nat :=
  match rows with
  | [] => mret processed_count
  | row :: rest =>
      n ← process_paper directory row processed_count;
      process_rows directory rest n
  end.

(** [process_papers(paper_library, obsidian_directory)] *)
Definition process_papers (paper_library : Collab)
  (directory : option string) : M unit :=
  try_except
    (result ← external CallSync (sync_zotero_collection paper_library);
     logger INFO result;;
     paper_library_df ←
       external CallGetLibraryDf (get_library_df paper_library);
     if df_empty paper_library_df then
       logger WARNING "No papers found in the library."
     else
       logger INFO ("Found " +:+ pretty (df_len paper_library_df)
                    +:+ " papers in the library.");;
       processed_count ← process_rows directory (iterrows paper_library_df) 0;
       logger INFO ("Successfully processed " +:+ pretty processed_count
                    +:+ " papers"))
    [(is_Exception, fun e =>
        logger ERROR ("Error processing papers: " +:+ exn_str e);;
        sys_exit 1)].

(** [main()], from the namespace that [parser.parse_args()] returned.  The
    exit that the parser performs itself on a bad command line (status 2)
    comes before and is not part of this definition. *)
Definition main (world : Collab) (args : Args) : M unit :=
  (if verbose args then logger_add else mret tt);;
  validate_args args;;
  args ← get_interactive_input args;
  try_except
    (logger INFO "Initializing Zotero client...";;
     external (CallZoteroClient (zotero_api_key args) (zotero_library_id args)
                 (zotero_library_type args))
       (ZoteroClient_init world (zotero_api_key args) (zotero_library_id args)
          (zotero_library_type args));;
     logger INFO "Initializing OpenAlex client...";;
     external CallOpenAlexClient (OpenAlexClient_init world);;
     external (CallPaperLibrary (zotero_collection_key args))
       (PaperLibrary_new world (zotero_collection_key args));;
     let obsidian_dir :=
       if dry_run args then None else obsidian_directory args in
     process_papers world obsidian_dir)
    [(is_KeyboardInterrupt, fun _ =>
        logger INFO "Operation cancelled by user";;
        sys_exit 0);
     (is_Exception, fun e =>
        logger ERROR ("Unexpected error: " +:+ exn_str e);;
        (if verbose args then print_exc e else mret tt);;
        sys_exit 1)].

(** How the process ends: with an exit status, or on an exception that
    nothing caught and that the interpreter reports. *)
Inductive termination : Type :=
| Exit (status : Z)
| Uncaught (e : exn).

Definition termination_of (r : exn + unit) : termination :=
  match r with
  | inr _ => Exit 0
  | inl (SystemExit code) => Exit code
  | inl e => Uncaught e
  end.

(** [if __name__ == '__main__': main()] *)
Definition run (world : Collab) (args : Args) (st : State)
  : termination * State :=
  let r := main world args st in (termination_of (fst r), snd r).

(** ** Auxiliary notions used by the statements *)

(** [open(p, 'w')] would go through on [fs]. *)
Definition writable (fs : FS) (p : pypath) : bool :=
  match open_w fs p with
  | inr _ => true
  | inl _ => false
  end.

(** The file writes that [process_rows] attempts, in order.  The list stops
    at the record on which the loop is left by an exception that the
    per-record handler does not catch. *)
Fixpoint write_plan (d : string) (rows : list (Z * Series))
  : list (pypath * string) :=
  match rows with
  | [] => []
  | row :: rest =>
      if has_fulltext (snd row) then
        match series_getitem "fulltext" (snd row),
              series_getitem "title" (snd row) with
        | inr fulltext, inr title =>
            match sanitize_filename title with
            | inr name =>
                (file_path d name, markdown_text title (py_str fulltext))
                  :: write_plan d rest
            | inl e =>
                if is_OSError e then write_plan d rest
                else []
            end
        | _, _ => []
        end
      else write_plan d rest
  end.

(** The effect of a list of attempted writes on the file system: a write
    that cannot be opened is skipped. *)
Fixpoint apply_writes (fs : FS) (ws : list (pypath * string)) : FS :=
  match ws with
  | [] => fs
  | (p, text) :: rest =>
      match open_w fs p with
      | inr fs' => apply_writes (write_text fs' p text) rest
      | inl _ => apply_writes fs rest
      end
  end.

(** The text of the last write in [ws] that goes to the key [k]. *)
Fixpoint last_write (fs : FS) (ws : list (pypath * string)) (k : list string)
  : option string :=
  match ws with
  | [] => None
  | (p, text) :: rest =>
      match last_write fs rest k with
      | Some t => Some t
      | None => if decide (locate fs p = k) then Some text else None
      end
  end.

(** The key [k] can be opened for writing: it is not the root, it is reached
    through directories only, and it is not a directory itself. *)
Definition key_writable (nodes : gmap (list string) node) (k : list string)
  : bool :=
  match k with
  | [] => false
  | _ =>
      match dir_error nodes [] (removelast k) with
      | Some _ => false
      | None =>
          match nodes !! k with
          | Some Dir => false
          | _ => true
          end
      end
  end.

(** The log messages of the loop. *)
Definition skip_message (row : Z * Series) : string :=
  "No fulltext found for paper '"
  +:+ py_str (series_get "title" (VStr ("#" +:+ pretty (fst row))) (snd row))
  +:+ "'".

Definition saved_message (title : pyval) (path : pypath) : string :=
  "Saved fulltext of paper '" +:+ py_str title +:+ "' to " +:+ path_str path.

Definition failed_message (title : pyval) (e : exn) : string :=
  "Failed to save paper '" +:+ py_str title +:+ "': " +:+ exn_str e.

Definition would_message (title : pyval) : string :=
  "Would process paper '" +:+ py_str title
  +:+ "' (no output directory specified)".

(** The part of [main] that runs before its [try] block. *)
Definition startup (args : Args) : M Args :=
  (if verbose args then logger_add else mret tt);;
  validate_args args;;
  get_interactive_input args.

(** The [try] block of [main] with its two handlers. *)
Definition guarded (world : Collab) (args : Args) : M unit :=
  try_except
    (logger INFO "Initializing Zotero client...";;
     external (CallZoteroClient (zotero_api_key args) (zotero_library_id args)
                 (zotero_library_type args))
       (ZoteroClient_init world (zotero_api_key args) (zotero_library_id args)
          (zotero_library_type args));;
     logger INFO "Initializing OpenAlex client...";;
     external CallOpenAlexClient (OpenAlexClient_init world);;
     external (CallPaperLibrary (zotero_collection_key args))
       (PaperLibrary_new world (zotero_collection_key args));;
     let obsidian_dir :=
       if dry_run args then None else obsidian_directory args in
     process_papers world obsidian_dir)
    [(is_KeyboardInterrupt, fun _ =>
        logger INFO "Operation cancelled by user";;
        sys_exit 0);
     (is_Exception, fun e =>
        logger ERROR ("Unexpected error: " +:+ exn_str e);;
        (if verbose args then print_exc e else mret tt);;
        sys_exit 1)].

(** The state in which [process_papers] starts once the three collaborators
    have been set up. *)
Definition clients_ready (args : Args) (st : State) : State :=
  add_call (CallPaperLibrary (zotero_collection_key args))
    (add_call CallOpenAlexClient
       (add_log (Log INFO "Initializing OpenAlex client...")
          (add_call (CallZoteroClient (zotero_api_key args)
                       (zotero_library_id args) (zotero_library_type args))
             (add_log (Log INFO "Initializing Zotero client...") st)))).

(** The effect of [process_papers] on the file system. *)
Definition export_fs (world : Collab) (dir : option string) (fs : FS) : FS :=
  match sync_zotero_collection world, get_library_df world, dir with
  | inr _, inr df, Some d =>
      if df_empty df then fs
      else if truthy d then apply_writes fs (write_plan d (iterrows df))
      else fs
  | _, _, _ => fs
  end.

(** The number of synchronization calls in a trace. *)
Definition sync_calls (st : State) : nat :=
  length (List.filter is_sync_call (st_calls st)).

(** A computation that leaves the file system and the trace of collaborator
    calls as they are, whatever it returns or raises. *)
Definition frame {A : Type} (m : M A) : Prop :=
  forall st, st_fs (snd (m st)) = st_fs st
             /\ st_calls (snd (m st)) = st_calls st.

Create HintDb frame.

(** Synchronization or the retrieval of the result table raises [e]. *)
Definition retrieval_raises (world : Collab) (e : exn) : Prop :=
  sync_zotero_collection world = inl e
  \/ (exists msg, sync_zotero_collection world = inr msg
                  /\ get_library_df world = inl e).

(** The directory that [main] hands to [process_papers]. *)
Definition export_directory (args : Args) : option string :=
  if dry_run args then None else obsidian_directory args.

(** The three collaborators are set up without an exception. *)
Definition clients_ok (world : Collab) (args : Args) : Prop :=
  ZoteroClient_init world (zotero_api_key args) (zotero_library_id args)
    (zotero_library_type args) = inr tt
  /\ OpenAlexClient_init world = inr tt
  /\ PaperLibrary_new world (zotero_collection_key args) = inr tt.

(** ** Further notions: accounting, possible exceptions, what logging
    cannot influence *)

(** The records of a table that pass the test of the loop. *)
Definition qualifying (rows : list (Z * Series)) : nat :=
  length (List.filter (fun row => has_fulltext (snd row)) rows).

Definition is_info (o : output) : bool :=
  match o with Log INFO _ => true | _ => false end.

Definition is_error (o : output) : bool :=
  match o with Log ERROR _ => true | _ => false end.

(** The number of INFO entries of a log. *)
Definition info_entries (l : list output) : nat :=
  length (List.filter is_info l).

(** Every exception that [m] raises satisfies [P]. *)
Definition raises_only {A : Type} (P : exn -> Prop) (m : M A) : Prop :=
  forall st e st', m st = (inl e, st') -> P e.

(** What can leave the start-up phase: the exit of a failed check, or what
    a prompt raises. *)
Definition startup_exn (e : exn) : Prop :=
  e = SystemExit 1 \/ e = KeyboardInterrupt \/ e = EOFError.

(** An exception that, if it is an exit, is the exit with status 1. *)
Definition exit_one_only (e : exn) : Prop :=
  match e with SystemExit code => code = 1%Z | _ => True end.

(** A result of an external call that is not a [SystemExit]. *)
Definition no_exit {A : Type} (r : exn + A) : Prop :=
  match r with inl (SystemExit _) => False | _ => True end.

(** The collaborators never end the process themselves. *)
Definition world_no_exit (world : Collab) : Prop :=
  (forall k i t, no_exit (ZoteroClient_init world k i t))
  /\ no_exit (OpenAlexClient_init world)
  /\ (forall c, no_exit (PaperLibrary_new world c))
  /\ no_exit (sync_zotero_collection world)
  /\ no_exit (get_library_df world).

(** One of the three collaborators cannot be set up: its constructor or
    its [init] raises [e]. *)
Definition client_setup_raises (world : Collab) (args : Args) (e : exn)
  : Prop :=
  ZoteroClient_init world (zotero_api_key args) (zotero_library_id args)
    (zotero_library_type args) = inl e
  \/ (ZoteroClient_init world (zotero_api_key args) (zotero_library_id args)
        (zotero_library_type args) = inr tt
      /\ (OpenAlexClient_init world = inl e
          \/ (OpenAlexClient_init world = inr tt
              /\ PaperLibrary_new world (zotero_collection_key args)
                 = inl e))).

(** Two states with the same file system, pending input and trace of
    collaborator calls; the logs and the sinks may differ. *)
Definition same_effects (st1 st2 : State) : Prop :=
  st_fs st1 = st_fs st2
  /\ st_stdin st1 = st_stdin st2
  /\ st_calls st1 = st_calls st2.

(** [m] does not look at what has been logged: from states with the same
    effects it gives the same result and states with the same effects. *)
Definition log_blind {A : Type} (m : M A) : Prop :=
  forall st1 st2,
    same_effects st1 st2 ->
    fst (m st1) = fst (m st2) /\ same_effects (snd (m st1)) (snd (m st2)).

(** The namespace with the verbosity flag set to [b]. *)
Definition set_verbose (b : bool) (args : Args) : Args :=
  {| zotero_api_key := zotero_api_key args;
     zotero_library_id := zotero_library_id args;
     zotero_collection_key := zotero_collection_key args;
     zotero_library_type := zotero_library_type args;
     obsidian_directory := obsidian_directory args;
     dry_run := dry_run args;
     verbose := b |}.

Create HintDb raises.
Create HintDb blind.

(** The body of the [try] block of [main]. *)
Definition guarded_body (world : Collab) (args : Args) : M unit :=
  logger INFO "Initializing Zotero client...";;
  external (CallZoteroClient (zotero_api_key args) (zotero_library_id args)
              (zotero_library_type args))
    (ZoteroClient_init world (zotero_api_key args) (zotero_library_id args)
       (zotero_library_type args));;
  logger INFO "Initializing OpenAlex client...";;
  external CallOpenAlexClient (OpenAlexClient_init world);;
  external (CallPaperLibrary (zotero_collection_key args))
    (PaperLibrary_new world (zotero_collection_key args));;
  process_papers world (export_directory args).

(** ** Proof support *)

Ltac unfold_monad :=
  unfold mbind, M_bind, mret, M_ret, lift, logger, print_exc, logger_add,
    sys_exit, raise, external, get_fs, getpass in *.

Ltac run_monad := unfold_monad; cbn [fst snd select_clause] in *.

(** ** Strings *)

Lemma rstrip_truthy (s : string) : truthy (rstrip s) = has_nonspace s.
Proof.
  induction s as [|c s IH]; [reflexivity|].
  cbn [rstrip has_nonspace]. rewrite <- IH.
  destruct (rstrip s); cbn [truthy].
  - destruct (py_isspace c); reflexivity.
  - rewrite orb_true_r. reflexivity.
Qed.

Lemma lstrip_has_nonspace (s : string) :
  has_nonspace (lstrip s) = has_nonspace s.
Proof.
  induction s as [|c s IH]; [reflexivity|].
  cbn [lstrip has_nonspace]. destruct (py_isspace c) eqn:E; cbn.
  - exact IH.
  - rewrite E. reflexivity.
Qed.

(** A string is non-empty after trimming exactly when one of its characters
    is not white space. *)
Lemma strip_truthy (s : string) : truthy (strip s) = has_nonspace s.
Proof. unfold strip. rewrite rstrip_truthy. apply lstrip_has_nonspace. Qed.

(** ** The table *)

Lemma series_contains_getitem (label : string) (paper : Series) :
  series_contains label paper = true <->
  exists v, series_getitem label paper = inr v.
Proof.
  induction paper as [|[l v] rest IH]; cbn.
  - split; [discriminate | intros [v H]; discriminate].
  - destruct (String.eqb l label); cbn; [|exact IH].
    split; eauto.
Qed.

(** The test of the loop, spelled out: the field is present, it is a string,
    and the string is not blank. *)
Lemma has_fulltext_spec (paper : Series) :
  has_fulltext paper = true <->
  exists s, series_getitem "fulltext" paper = inr (VStr s)
            /\ has_nonspace s = true.
Proof.
  unfold has_fulltext. split.
  - intros H. apply andb_true_iff in H as [_ H].
    destruct (series_getitem "fulltext" paper) as [e|[s| |]]; try discriminate.
    exists s. rewrite <- strip_truthy. auto.
  - intros (s & Hs & Hn). apply andb_true_iff. split.
    + apply series_contains_getitem. eauto.
    + rewrite Hs, strip_truthy. exact Hn.
Qed.

(** ** Paths *)

Lemma no_slash_app (s t : string) :
  no_slash (s +:+ t) = no_slash s && no_slash t.
Proof.
  induction s as [|c s IH]; [reflexivity|].
  simpl. rewrite IH. apply andb_assoc.
Qed.

Lemma split_slash_no_slash (s : string) :
  no_slash s = true -> split_slash s = [s].
Proof.
  induction s as [|c s IH]; [reflexivity|].
  cbn. destruct (Ascii.eqb c "/"); [discriminate|].
  cbn. intros H. rewrite (IH H). reflexivity.
Qed.

(** A sanitized name without slash gives a one-component relative path
    once the extension is appended. *)
Lemma Path_file_name (name : string) :
  no_slash name = true ->
  Path (name +:+ ".md") = {| absolute := false; parts := [name +:+ ".md"] |}.
Proof.
  intros H. unfold Path. f_equal.
  - destruct name as [|c name]; [reflexivity|].
    simpl in *. destruct (Ascii.eqb c "/"); [discriminate | reflexivity].
  - assert (Hn : no_slash (name +:+ ".md") = true)
      by (rewrite no_slash_app, H; reflexivity).
    rewrite (split_slash_no_slash _ Hn).
    destruct name as [|c [|c' name]]; try reflexivity; simpl;
      unfold keep_component; simpl; destruct (Ascii.eqb c "."); reflexivity.
Qed.

Lemma locate_file_path (fs : FS) (d name : string) :
  no_slash name = true ->
  locate fs (file_path d name) = locate fs (Path d) ++ [name +:+ ".md"].
Proof.
  intros H. unfold file_path, path_div. rewrite (Path_file_name _ H).
  cbn [absolute parts]. unfold locate. cbn [absolute parts].
  destruct (absolute (Path d)); [reflexivity|].
  rewrite app_assoc. reflexivity.
Qed.

(** ** The file system *)

Lemma dir_error_OSError nodes pre comps e :
  dir_error nodes pre comps = Some e -> is_OSError e = true.
Proof.
  revert pre. induction comps as [|c cs IH]; intros pre; cbn; [discriminate|].
  destruct (nodes !! (pre ++ [c])) as [[|content]|]; eauto;
    intros [= <-]; reflexivity.
Qed.

(** The walk succeeds on [comps ++ [c]] when it succeeds on [comps] and the
    last step is a directory too. *)
Lemma dir_error_snoc nodes pre comps c :
  dir_error nodes pre (comps ++ [c]) = None <->
  dir_error nodes pre comps = None /\ nodes !! (pre ++ comps ++ [c]) = Some Dir.
Proof.
  revert pre. induction comps as [|x xs IH]; intros pre; cbn.
  - destruct (nodes !! (pre ++ [c])) as [[|content]|]; split; intros H;
      try discriminate; try (destruct H; discriminate); auto.
  - destruct (nodes !! (pre ++ [x])) as [[|content]|].
    + rewrite IH. rewrite <- (app_assoc pre [x]). reflexivity.
    + split; [discriminate | intros [? _]; discriminate].
    + split; [discriminate | intros [? _]; discriminate].
Qed.

(** The walk only looks at keys shorter than the walked path. *)
Lemma dir_error_insert_longer nodes k n pre comps :
  length pre + length comps < length k ->
  dir_error (<[k := n]> nodes) pre comps = dir_error nodes pre comps.
Proof.
  revert pre. induction comps as [|c cs IH]; intros pre Hlen; [reflexivity|].
  cbn in *. rewrite lookup_insert_ne.
  - destruct (nodes !! (pre ++ [c])) as [[|content]|]; try reflexivity.
    apply IH. rewrite length_app. cbn. lia.
  - intros ->. rewrite length_app in Hlen. cbn in Hlen. lia.
Qed.

(** Putting a regular file where no directory was does not change which
    walks succeed. *)
Lemma dir_error_insert_file nodes q t pre comps :
  nodes !! q <> Some Dir ->
  is_Some (dir_error (<[q := File t]> nodes) pre comps) <->
  is_Some (dir_error nodes pre comps).
Proof.
  intros Hq. revert pre. induction comps as [|c cs IH]; intros pre; cbn.
  - reflexivity.
  - destruct (decide (q = pre ++ [c])) as [->|Hne].
    + rewrite lookup_insert_eq.
      destruct (nodes !! (pre ++ [c])) as [[|content]|];
        [congruence | split; eauto | split; eauto].
    + rewrite lookup_insert_ne by exact Hne.
      destruct (nodes !! (pre ++ [c])) as [[|content]|]; [apply IH| |];
        reflexivity.
Qed.

Lemma key_writable_nonroot nodes k :
  key_writable nodes k = true -> k <> [].
Proof. destruct k; [discriminate | congruence]. Qed.

Lemma key_writable_not_dir nodes k :
  key_writable nodes k = true -> nodes !! k <> Some Dir.
Proof.
  unfold key_writable. destruct k as [|x k]; [discriminate|].
  destruct (dir_error nodes [] (removelast (x :: k))); [discriminate|].
  destruct (nodes !! (x :: k)) as [[|content]|]; congruence.
Qed.

(** [open_w] goes through exactly on the writable keys, creates or truncates
    the file, and fails with an [OSError] otherwise. *)
Lemma open_w_inr fs p fs' :
  open_w fs p = inr fs' ->
  key_writable (fs_nodes fs) (locate fs p) = true
  /\ fs' = {| fs_cwd := fs_cwd fs;
              fs_nodes := <[locate fs p := File ""]> (fs_nodes fs) |}.
Proof.
  unfold open_w, key_writable. destruct (locate fs p) as [|x k]; [discriminate|].
  destruct (dir_error (fs_nodes fs) [] (removelast (x :: k))); [discriminate|].
  destruct (fs_nodes fs !! (x :: k)) as [[|content]|];
    try discriminate; intros [= <-]; auto.
Qed.

Lemma open_w_inl fs p e :
  open_w fs p = inl e ->
  key_writable (fs_nodes fs) (locate fs p) = false /\ is_OSError e = true.
Proof.
  unfold open_w, key_writable. destruct (locate fs p) as [|x k].
  { intros [= <-]. auto. }
  destruct (dir_error (fs_nodes fs) [] (removelast (x :: k))) as [e'|] eqn:E.
  { intros [= <-]. split; [reflexivity | eapply dir_error_OSError; eauto]. }
  destruct (fs_nodes fs !! (x :: k)) as [[|content]|];
    try discriminate; intros [= <-]; auto.
Qed.

Lemma open_w_writable fs p :
  writable fs p = key_writable (fs_nodes fs) (locate fs p).
Proof.
  unfold writable. destruct (open_w fs p) as [e|fs'] eqn:E.
  - apply open_w_inl in E as [-> _]. reflexivity.
  - apply open_w_inr in E as [-> _]. reflexivity.
Qed.

(** Opening and then writing leaves the text under the key of the path. *)
Lemma open_then_write fs p fs' text :
  open_w fs p = inr fs' -> write_text fs' p text = write_text fs p text.
Proof.
  intros H. apply open_w_inr in H as [_ ->].
  unfold write_text, locate. cbn. rewrite insert_insert_eq. reflexivity.
Qed.

Lemma stat_insert_file nodes k text :
  key_writable nodes k = true ->
  stat (<[k := File text]> nodes) k = inr (File text).
Proof.
  unfold key_writable, stat. destruct k as [|x k]; [discriminate|].
  rewrite dir_error_insert_longer.
  - destruct (dir_error nodes [] (removelast (x :: k))); [discriminate|].
    rewrite lookup_insert_eq. reflexivity.
  - destruct (exists_last (l := x :: k)) as (l' & a & E); [discriminate|].
    rewrite E, removelast_last, length_app. cbn. lia.
Qed.

Lemma read_after_write fs p fs' text :
  open_w fs p = inr fs' ->
  read_file (write_text fs' p text) p = Some text.
Proof.
  intros H. rewrite (open_then_write _ _ _ _ H).
  apply open_w_inr in H as [Hw _].
  unfold read_file, write_text, locate in *. cbn.
  rewrite stat_insert_file by exact Hw. reflexivity.
Qed.

(** *** Creating directories *)

Lemma makedirs_inl nodes pre comps e :
  makedirs nodes pre comps = inl e -> is_OSError e = true.
Proof.
  revert nodes pre. induction comps as [|c cs IH]; intros nodes pre; cbn.
  - discriminate.
  - destruct (nodes !! (pre ++ [c])) as [[|content]|]; eauto.
    intros [= <-]. destruct cs; reflexivity.
Qed.

Lemma makedirs_inr nodes pre comps nodes' :
  makedirs nodes pre comps = inr nodes' ->
  dir_error nodes' pre comps = None
  /\ (forall q, nodes !! q = Some Dir -> nodes' !! q = Some Dir).
Proof.
  revert nodes pre. induction comps as [|c cs IH]; intros nodes pre; cbn.
  - intros [= <-]. auto.
  - destruct (nodes !! (pre ++ [c])) as [[|content]|] eqn:E.
    + intros H. apply IH in H as [Hwalk Hkeep].
      rewrite (Hkeep _ E). auto.
    + discriminate.
    + intros H. apply IH in H as [Hwalk Hkeep].
      rewrite (Hkeep (pre ++ [c])) by apply lookup_insert_eq.
      split; [exact Hwalk|].
      intros q Hq. apply Hkeep.
      destruct (decide (pre ++ [c] = q)) as [->|Hne].
      * apply lookup_insert_eq.
      * rewrite lookup_insert_ne by exact Hne. exact Hq.
Qed.

(** A key on which the whole walk succeeds is a directory. *)
Lemma stat_walked nodes k :
  dir_error nodes [] k = None -> stat nodes k = inr Dir.
Proof.
  destruct k as [|x k]; [reflexivity|].
  destruct (exists_last (l := x :: k)) as (l' & a & E); [discriminate|].
  rewrite E. intros H. apply dir_error_snoc in H as [H1 H2]. cbn in H2.
  unfold stat. rewrite removelast_last, H1, H2.
  destruct (l' ++ [a]) eqn:E'; [|reflexivity].
  apply app_eq_nil in E' as [_ ?]. discriminate.
Qed.

Lemma stat_dir_walked nodes k :
  stat nodes k = inr Dir -> dir_error nodes [] k = None.
Proof.
  destruct k as [|x k]; [reflexivity|].
  destruct (exists_last (l := x :: k)) as (l' & a & E); [discriminate|].
  rewrite E. unfold stat. rewrite removelast_last.
  destruct (l' ++ [a]) eqn:E'.
  { apply app_eq_nil in E' as [_ ?]. discriminate. }
  rewrite <- E'. intros H. apply dir_error_snoc. cbn.
  destruct (dir_error nodes [] l'); [discriminate|].
  destruct (nodes !! (l' ++ [a])) as [[|c]|]; try discriminate. auto.
Qed.

(** [mkdir(parents=True, exist_ok=True)] that returns leaves a directory,
    reachable through directories, and raises nothing but [OSError]. *)
Lemma mkdir_parents_is_dir fs p fs' :
  mkdir_parents fs p = inr fs' -> path_is_dir fs' p = true.
Proof.
  unfold mkdir_parents, path_is_dir.
  destruct (makedirs (fs_nodes fs) [] (locate fs p)) as [e|nodes'] eqn:E;
    [discriminate|].
  intros [= <-]. apply makedirs_inr in E as [Hwalk _].
  unfold locate in *. cbn. rewrite (stat_walked _ _ Hwalk). reflexivity.
Qed.

Lemma mkdir_parents_OSError fs p e :
  mkdir_parents fs p = inl e -> is_OSError e = true.
Proof.
  unfold mkdir_parents.
  destruct (makedirs (fs_nodes fs) [] (locate fs p)) as [e'|nodes'] eqn:E;
    [|discriminate].
  intros [= <-]. eapply makedirs_inl; eauto.
Qed.

(** Below a path that is not a directory no file can be opened. *)
Lemma open_w_below_missing fs d name :
  path_is_dir fs (Path d) = false ->
  no_slash name = true ->
  exists e, open_w fs (file_path d name) = inl e /\ is_OSError e = true.
Proof.
  intros Hdir Hname.
  assert (Hwalk : dir_error (fs_nodes fs) [] (locate fs (Path d)) <> None).
  { intros H. apply stat_walked in H. unfold path_is_dir in Hdir.
    rewrite H in Hdir. discriminate. }
  unfold open_w. rewrite (locate_file_path _ _ _ Hname).
  rewrite removelast_last.
  destruct (locate fs (Path d) ++ [name +:+ ".md"]) eqn:E.
  { apply app_eq_nil in E as [_ ?]. discriminate. }
  destruct (dir_error (fs_nodes fs) [] (locate fs (Path d))) as [e|] eqn:E';
    [|congruence].
  exists e. split; [reflexivity | eapply dir_error_OSError; eauto].
Qed.

Lemma path_exists_is_dir fs p :
  path_exists fs p = false -> path_is_dir fs p = false.
Proof.
  unfold path_exists, path_is_dir.
  destruct (stat (fs_nodes fs) (locate fs p)) as [e|[|c]];
    [reflexivity | discriminate | reflexivity].
Qed.

(** *** Sequences of writes *)

Lemma key_writable_insert_file nodes q t k :
  nodes !! q <> Some Dir ->
  key_writable (<[q := File t]> nodes) k = key_writable nodes k.
Proof.
  intros Hq. unfold key_writable. destruct k as [|x k]; [reflexivity|].
  pose proof (dir_error_insert_file nodes q t [] (removelast (x :: k)) Hq)
    as Hwalk.
  destruct (dir_error (<[q := File t]> nodes) [] (removelast (x :: k)))
    as [e1|], (dir_error nodes [] (removelast (x :: k))) as [e2|];
    try reflexivity.
  - destruct Hwalk as [Hwalk _]. destruct Hwalk as [? ?]; [eauto|discriminate].
  - destruct Hwalk as [_ Hwalk]. destruct Hwalk as [? ?]; [eauto|discriminate].
  - destruct (decide (q = x :: k)) as [->|Hne].
    + rewrite lookup_insert_eq.
      destruct (nodes !! (x :: k)) as [[|c]|]; congruence.
    + rewrite lookup_insert_ne by exact Hne. reflexivity.
Qed.

Lemma apply_writes_cons fs p text rest :
  apply_writes fs ((p, text) :: rest) =
  if writable fs p then apply_writes (write_text fs p text) rest
  else apply_writes fs rest.
Proof.
  cbn. unfold writable. destruct (open_w fs p) as [e|fs'] eqn:E; [reflexivity|].
  rewrite (open_then_write _ _ _ _ E). reflexivity.
Qed.

Lemma apply_writes_cwd fs ws : fs_cwd (apply_writes fs ws) = fs_cwd fs.
Proof.
  revert fs. induction ws as [|[p text] rest IH]; intros fs; [reflexivity|].
  rewrite apply_writes_cons. destruct (writable fs p); rewrite IH; reflexivity.
Qed.

Lemma last_write_cwd fs1 fs2 ws k :
  fs_cwd fs1 = fs_cwd fs2 -> last_write fs1 ws k = last_write fs2 ws k.
Proof.
  intros H. induction ws as [|[p text] rest IH]; [reflexivity|].
  cbn. rewrite IH. unfold locate. rewrite H. reflexivity.
Qed.


(** After a run of writes a writable key holds the last text written to it;
    every other key is as before. *)
Lemma lookup_apply_writes fs ws k :
  fs_nodes (apply_writes fs ws) !! k =
  if key_writable (fs_nodes fs) k then
    match last_write fs ws k with
    | Some t => Some (File t)
    | None => fs_nodes fs !! k
    end
  else fs_nodes fs !! k.
Proof.
  revert fs. induction ws as [|[p text] rest IH]; intros fs.
  - cbn. destruct (key_writable (fs_nodes fs) k); reflexivity.
  - rewrite apply_writes_cons. cbn [last_write].
    destruct (writable fs p) eqn:E; rewrite IH.
    + rewrite open_w_writable in E.
      rewrite (last_write_cwd (write_text fs p text) fs) by reflexivity.
      cbn [write_text fs_nodes].
      rewrite key_writable_insert_file
        by (apply key_writable_not_dir, E).
      destruct (key_writable (fs_nodes fs) k) eqn:Ek.
      * destruct (last_write fs rest k); [reflexivity|].
        destruct (decide (locate fs p = k)) as [->|Hne].
        -- apply lookup_insert_eq.
        -- apply lookup_insert_ne, Hne.
      * apply lookup_insert_ne. intros <-. congruence.
    + rewrite open_w_writable in E.
      destruct (key_writable (fs_nodes fs) k) eqn:Ek; [|reflexivity].
      destruct (last_write fs rest k); [reflexivity|].
      destruct (decide (locate fs p = k)) as [Heq|Hne]; [|reflexivity].
      rewrite Heq in E. congruence.
Qed.


(** ** One record *)

Lemma process_paper_skip dir row n st :
  has_fulltext (snd row) = false ->
  process_paper dir row n st
  = (inr n, add_log (Log WARNING (skip_message row)) st).
Proof. intros H. unfold process_paper. rewrite H. reflexivity. Qed.

Lemma process_paper_no_title dir row n st e :
  has_fulltext (snd row) = true ->
  series_getitem "title" (snd row) = inl e ->
  process_paper dir row n st = (inl e, st).
Proof.
  intros H Ht. unfold process_paper. rewrite H.
  apply has_fulltext_spec in H as (s & Hs & _).
  run_monad. rewrite Hs, Ht. reflexivity.
Qed.

Lemma process_paper_simulated dir row n st title :
  has_fulltext (snd row) = true ->
  series_getitem "title" (snd row) = inr title ->
  truthy_opt dir = false ->
  process_paper dir row n st
  = (inr (n + 1), add_log (Log INFO (would_message title)) st).
Proof.
  intros H Ht Hd. unfold process_paper. rewrite H.
  apply has_fulltext_spec in H as (s & Hs & _).
  run_monad. rewrite Hs, Ht.
  destruct dir as [d|]; [|reflexivity].
  cbn in Hd. rewrite Hd. reflexivity.
Qed.

Lemma process_paper_sanitize_raises d row n st title e :
  has_fulltext (snd row) = true ->
  series_getitem "title" (snd row) = inr title ->
  truthy d = true ->
  sanitize_filename title = inl e ->
  process_paper (Some d) row n st
  = if is_OSError e
    then (inr n, add_log (Log ERROR (failed_message title e)) st)
    else (inl e, st).
Proof.
  intros H Ht Hd Hs. unfold process_paper. rewrite H.
  apply has_fulltext_spec in H as (s & Hft & _).
  run_monad. rewrite Hft, Ht, Hd. unfold try_except. rewrite ?Ht, Hs.
  cbn [select_clause]. destruct (is_OSError e); [|reflexivity].
  rewrite ?Ht. reflexivity.
Qed.

Lemma process_paper_written d row n st title s name fs' :
  series_getitem "fulltext" (snd row) = inr (VStr s) ->
  has_nonspace s = true ->
  series_getitem "title" (snd row) = inr title ->
  truthy d = true ->
  sanitize_filename title = inr name ->
  open_w (st_fs st) (file_path d name) = inr fs' ->
  process_paper (Some d) row n st
  = (inr (n + 1),
     add_log (Log INFO (saved_message title (file_path d name)))
       (set_fs (write_text fs' (file_path d name) (markdown_text title s))
          st)).
Proof.
  intros Hft Hn Ht Hd Hs Ho. unfold process_paper.
  replace (has_fulltext (snd row)) with true
    by (symmetry; apply has_fulltext_spec; eauto).
  run_monad. rewrite Hft, Ht, Hd. unfold try_except, open_and_write.
  rewrite ?Ht, Hs, Ho. cbn [set_fs st_fs]. rewrite ?Ht. reflexivity.
Qed.

Lemma process_paper_write_fails d row n st title name e :
  has_fulltext (snd row) = true ->
  series_getitem "title" (snd row) = inr title ->
  truthy d = true ->
  sanitize_filename title = inr name ->
  open_w (st_fs st) (file_path d name) = inl e ->
  process_paper (Some d) row n st
  = (inr n, add_log (Log ERROR (failed_message title e)) st).
Proof.
  intros H Ht Hd Hs Ho. unfold process_paper. rewrite H.
  apply has_fulltext_spec in H as (s & Hft & _).
  run_monad. rewrite Hft, Ht, Hd. unfold try_except, open_and_write.
  rewrite ?Ht, Hs, Ho. cbn [select_clause].
  apply open_w_inl in Ho as [_ ->]. rewrite ?Ht. reflexivity.
Qed.

(** The loop threads the state and the counter from record to record. *)
Lemma process_rows_cons dir row rest n st :
  process_rows dir (row :: rest) n st
  = match process_paper dir row n st with
    | (inr m, st') => process_rows dir rest m st'
    | (inl e, st') => (inl e, st')
    end.
Proof. reflexivity. Qed.

(** The file system after the loop is the one its planned writes produce. *)
Lemma process_rows_fs d rows n st :
  truthy d = true ->
  st_fs (snd (process_rows (Some d) rows n st))
  = apply_writes (st_fs st) (write_plan d rows).
Proof.
  intros Hd. revert n st. induction rows as [|row rest IH]; intros n st.
  - reflexivity.
  - rewrite process_rows_cons. cbn [write_plan].
    destruct (has_fulltext (snd row)) eqn:H.
    + pose proof H as (s & Hft & Hn)%has_fulltext_spec. rewrite Hft.
      destruct (series_getitem "title" (snd row)) as [e|title] eqn:Ht.
      { rewrite (process_paper_no_title _ _ _ _ _ H Ht). reflexivity. }
      destruct (sanitize_filename title) as [e|name] eqn:Hs.
      { rewrite (process_paper_sanitize_raises _ _ _ _ _ _ H Ht Hd Hs).
        destruct (is_OSError e); [|reflexivity]. rewrite IH. reflexivity. }
      cbn [apply_writes py_str].
      destruct (open_w (st_fs st) (file_path d name)) as [e|fs'] eqn:Ho.
      * rewrite (process_paper_write_fails _ _ _ _ _ _ _ H Ht Hd Hs Ho).
        rewrite IH. reflexivity.
      * rewrite (process_paper_written _ _ _ _ _ _ _ _ Hft Hn Ht Hd Hs Ho).
        rewrite IH. reflexivity.
    + rewrite (process_paper_skip _ _ _ _ H). rewrite IH. reflexivity.
Qed.

(** Without an output directory the loop leaves the file system alone. *)
Lemma process_rows_simulated_fs dir rows n st :
  truthy_opt dir = false ->
  st_fs (snd (process_rows dir rows n st)) = st_fs st.
Proof.
  intros Hd. revert n st. induction rows as [|row rest IH]; intros n st.
  - reflexivity.
  - rewrite process_rows_cons.
    destruct (has_fulltext (snd row)) eqn:H.
    + destruct (series_getitem "title" (snd row)) as [e|title] eqn:Ht.
      { rewrite (process_paper_no_title _ _ _ _ _ H Ht). reflexivity. }
      rewrite (process_paper_simulated _ _ _ _ _ H Ht Hd).
      rewrite IH. reflexivity.
    + rewrite (process_paper_skip _ _ _ _ H). rewrite IH. reflexivity.
Qed.


(** ** The whole run *)

Lemma main_startup world args st :
  main world args st
  = match startup args st with
    | (inr args', st') => guarded world args' st'
    | (inl e, st') => (inl e, st')
    end.
Proof.
  unfold main, startup, guarded. run_monad.
  destruct (if verbose args then _ else _) as [[e|[]] st0]; [reflexivity|].
  destruct (validate_args args st0) as [[e|[]] st1]; [reflexivity|].
  destruct (get_interactive_input args st1) as [[e|args'] st2]; reflexivity.
Qed.


Lemma validate_args_calls args st :
  st_calls (snd (validate_args args st)) = st_calls st.
Proof.
  unfold validate_args, try_except, mkdir. run_monad.
  destruct (invalid_library_type (zotero_library_type args)); [reflexivity|].
  destruct (obsidian_directory args) as [d|]; [|reflexivity].
  destruct (truthy d); [|reflexivity].
  destruct (path_exists (st_fs st) (Path d)); cbn.
  - destruct (path_is_dir (st_fs st) (Path d)); reflexivity.
  - destruct (mkdir_parents (st_fs st) (Path d)) as [e|fs']; [|reflexivity].
    cbn. destruct (is_OSError e); reflexivity.
Qed.

Lemma process_rows_app dir before after n st :
  process_rows dir (before ++ after) n st
  = match process_rows dir before n st with
    | (inr m, st') => process_rows dir after m st'
    | (inl e, st') => (inl e, st')
    end.
Proof.
  revert n st. induction before as [|row rest IH]; intros n st; [reflexivity|].
  cbn [app]. rewrite !process_rows_cons.
  destruct (process_paper dir row n st) as [[e|m] st']; [reflexivity|].
  apply IH.
Qed.

(** ** The loop over the records *)

(** C1: for a record whose full text is a string that is not blank, exported
    with an output directory configured, the file that the record's write
    produces holds ["# " + title + "\n\n" + fulltext]: one header line with
    the title, a blank line, and the full text as it is.  The record is
    counted as processed. *)
Theorem C1_written_file_content d row n st (title fulltext name : string) :
  truthy d = true ->
  series_getitem "fulltext" (snd row) = inr (VStr fulltext) ->
  has_nonspace fulltext = true ->
  series_getitem "title" (snd row) = inr (VStr title) ->
  sanitize_filename (VStr title) = inr name ->
  writable (st_fs st) (file_path d name) = true ->
  let r := process_paper (Some d) row n st in
  fst r = inr (n + 1)
  /\ read_file (st_fs (snd r)) (file_path d name)
     = Some ("# " +:+ title +:+ nl +:+ nl +:+ fulltext).
Proof.
  intros Hd Hft Hn Ht Hs Hw. unfold writable in Hw.
  destruct (open_w (st_fs st) (file_path d name)) as [e|fs'] eqn:Ho;
    [discriminate|].
  cbv zeta.
  rewrite (process_paper_written _ _ _ _ _ _ _ _ Hft Hn Ht Hd Hs Ho).
  cbn [fst snd add_log set_fs st_fs]. split; [reflexivity|].
  apply (read_after_write _ _ _ _ Ho).
Qed.

(** C2: a record whose full-text field is absent, is not a string, or is
    blank after trimming produces no file and does not count as processed:
    wherever it stands in the result set, the loop goes past it with the
    file system and the counter unchanged, and logs one warning.  So a file
    is written for a record only if the field is present, is a string and is
    not blank. *)
Theorem C2_no_fulltext_no_file dir before row after n st :
  ~ (exists s, series_getitem "fulltext" (snd row) = inr (VStr s)
               /\ has_nonspace s = true) ->
  (forall m st',
     process_paper dir row m st'
     = (inr m, add_log (Log WARNING (skip_message row)) st'))
  /\ process_rows dir (before ++ row :: after) n st
     = match process_rows dir before n st with
       | (inr m, st') =>
           process_rows dir after m
             (add_log (Log WARNING (skip_message row)) st')
       | (inl e, st') => (inl e, st')
       end.
Proof.
  intros Hno.
  assert (H : has_fulltext (snd row) = false).
  { destruct (has_fulltext (snd row)) eqn:E; [|reflexivity].
    apply has_fulltext_spec in E. contradiction. }
  split.
  - intros m st'. apply process_paper_skip, H.
  - rewrite process_rows_app.
    destruct (process_rows dir before n st) as [[e|m] st']; [reflexivity|].
    rewrite process_rows_cons, (process_paper_skip _ _ _ _ H). reflexivity.
Qed.

(** C6: when the write of a record raises an I/O error, the error is caught
    and logged, the record is not counted, and the loop goes on: the records
    after it are processed in order, from the same file system and with the
    same counter. *)
Theorem C6_write_failure_continues d before row after n st m st' title name e :
  truthy d = true ->
  process_rows (Some d) before n st = (inr m, st') ->
  has_fulltext (snd row) = true ->
  series_getitem "title" (snd row) = inr title ->
  sanitize_filename title = inr name ->
  open_w (st_fs st') (file_path d name) = inl e ->
  process_rows (Some d) (before ++ row :: after) n st
  = process_rows (Some d) after m
      (add_log (Log ERROR (failed_message title e)) st').
Proof.
  intros Hd Hb H Ht Hs Ho.
  rewrite process_rows_app, Hb, process_rows_cons.
  rewrite (process_paper_write_fails _ _ _ _ _ _ _ H Ht Hd Hs Ho).
  reflexivity.
Qed.

(** C5: when the library type of the resolved configuration is neither
    ['user'] nor ['group'], the process logs the error and exits with
    status 1; no collaborator is called, so no synchronization is attempted,
    and the file system is not touched. *)
Theorem C5_invalid_library_type world args st :
  zotero_library_type args <> "user" ->
  zotero_library_type args <> "group" ->
  let r := run world args st in
  fst r = Exit 1
  /\ st_calls (snd r) = st_calls st
  /\ st_fs (snd r) = st_fs st
  /\ st_log (snd r)
     = st_log st ++ [Log ERROR ("Invalid library type: "
                                +:+ zotero_library_type args
                                +:+ ". Must be 'user' or 'group'.")].
Proof.
  intros Hu Hg.
  assert (H : invalid_library_type (zotero_library_type args) = true).
  { unfold invalid_library_type.
    destruct (String.eqb_spec (zotero_library_type args) "user");
      [contradiction|].
    destruct (String.eqb_spec (zotero_library_type args) "group");
      [contradiction|reflexivity]. }
  unfold run. rewrite main_startup. unfold startup, validate_args.
  run_monad. rewrite H. destruct (verbose args); cbn; auto.
Qed.

(** ** Start-up: validation and prompting *)

Lemma bind_inr {A B : Type} (m : M A) (k : A -> M B) st b st' :
  (m ≫= k) st = (inr b, st') ->
  exists a st1, m st = (inr a, st1) /\ k a st1 = (inr b, st').
Proof.
  unfold mbind, M_bind. destruct (m st) as [[e|a] st1]; [discriminate|].
  eauto.
Qed.

Lemma frame_ret {A : Type} (a : A) : frame (mret a).
Proof. intros st. auto. Qed.

Lemma frame_bind {A B : Type} (m : M A) (k : A -> M B) :
  frame m -> (forall a, frame (k a)) -> frame (m ≫= k).
Proof.
  intros Hm Hk st. unfold mbind, M_bind.
  destruct (Hm st) as [H1 H2]. destruct (m st) as [[e|a] st1]; [auto|].
  cbn in *. destruct (Hk a st1) as [H3 H4]. split; congruence.
Qed.

Lemma frame_logger lvl msg : frame (logger lvl msg).
Proof. intros st. auto. Qed.

Lemma frame_sys_exit {A : Type} code : frame (@sys_exit A code).
Proof. intros st. auto. Qed.

Lemma frame_input : frame input.
Proof.
  intros st. unfold input. destruct (st_stdin st) as [|[s| |] rest]; auto.
Qed.

#[local] Hint Resolve frame_ret frame_logger frame_sys_exit frame_input
  frame_bind : frame.
#[local] Hint Extern 1 (frame (if ?b then _ else _)) => destruct b : frame.

(** Prompting reads the terminal and, when it fails, logs; it never touches
    the file system or a collaborator. *)
Lemma get_interactive_input_frame args : frame (get_interactive_input args).
Proof. unfold get_interactive_input, getpass. auto 30 with frame. Qed.

(** A directory that is in the namespace after prompting, and was not
    before, is the trimmed answer to the prompt: a non-empty string. *)
Lemma get_interactive_input_directory args st args' st' d :
  truthy_opt (obsidian_directory args) = false ->
  get_interactive_input args st = (inr args', st') ->
  obsidian_directory args' = Some d ->
  truthy d = true.
Proof.
  intros Hno H Hd. unfold get_interactive_input in H. rewrite Hno in H.
  apply bind_inr in H as (k & st1 & _ & H).
  apply bind_inr in H as (l & st2 & _ & H).
  apply bind_inr in H as (c & st3 & _ & H).
  apply bind_inr in H as (dir & st4 & H4 & H).
  cbn in H4. apply bind_inr in H4 as (answer & st5 & _ & H4).
  injection H as <- _. injection H4 as <- _. cbn in Hd.
  destruct (truthy (strip answer)) eqn:E; [|discriminate].
  injection Hd as <-. exact E.
Qed.

(** A directory given on the command line or in the environment is kept. *)
Lemma get_interactive_input_keeps args st args' st' :
  get_interactive_input args st = (inr args', st') ->
  dry_run args' = dry_run args
  /\ (truthy_opt (obsidian_directory args) = true ->
      obsidian_directory args' = obsidian_directory args).
Proof.
  intros H. unfold get_interactive_input in H.
  apply bind_inr in H as (k & st1 & _ & H).
  apply bind_inr in H as (l & st2 & _ & H).
  apply bind_inr in H as (c & st3 & _ & H).
  apply bind_inr in H as (dir & st4 & H4 & H).
  injection H as <- _. cbn. split; [reflexivity|].
  intros Ht. rewrite Ht in H4. injection H4 as <- _. reflexivity.
Qed.

(** Without a directory in the namespace, validation only looks at the
    library type. *)
Lemma validate_args_no_directory args st :
  truthy_opt (obsidian_directory args) = false ->
  validate_args args st
  = if invalid_library_type (zotero_library_type args)
    then (inl (SystemExit 1),
          add_log (Log ERROR ("Invalid library type: "
                              +:+ zotero_library_type args
                              +:+ ". Must be 'user' or 'group'.")) st)
    else (inr tt, st).
Proof.
  intros H. unfold validate_args. run_monad.
  destruct (invalid_library_type (zotero_library_type args)); [reflexivity|].
  destruct (obsidian_directory args) as [d|]; [|reflexivity].
  cbn in H. rewrite H. reflexivity.
Qed.

(** What validation does to the file system: nothing, or the creation of
    the supplied directory that did not exist. *)
Lemma validate_args_fs args st :
  st_fs (snd (validate_args args st)) = st_fs st
  \/ exists d, obsidian_directory args = Some d /\ truthy d = true
               /\ path_exists (st_fs st) (Path d) = false
               /\ mkdir_parents (st_fs st) (Path d)
                  = inr (st_fs (snd (validate_args args st))).
Proof.
  unfold validate_args, try_except, mkdir. run_monad.
  destruct (invalid_library_type (zotero_library_type args)); [auto|].
  destruct (obsidian_directory args) as [d|]; [|auto].
  destruct (truthy d) eqn:Hd; [|auto].
  destruct (path_exists (st_fs st) (Path d)) eqn:He; cbn.
  - destruct (path_is_dir (st_fs st) (Path d)); auto.
  - destruct (mkdir_parents (st_fs st) (Path d)) as [e|fs'] eqn:Hm.
    + cbn. destruct (is_OSError e); auto.
    + right. exists d. auto.
Qed.


(** When validation exits, the process exits with the same status and
    nothing else has happened. *)
Lemma main_validate_exits world args st code st' :
  validate_args args (if verbose args then add_sink st else st)
  = (inl (SystemExit code), st') ->
  main world args st = (inl (SystemExit code), st').
Proof.
  intros H. rewrite main_startup. unfold startup. run_monad.
  destruct (verbose args); rewrite H; reflexivity.
Qed.

(** ** The export as a whole *)

Lemma process_papers_fs world dir st :
  st_fs (snd (process_papers world dir st)) = export_fs world dir (st_fs st).
Proof.
  unfold process_papers, export_fs, try_except. run_monad.
  destruct (sync_zotero_collection world) as [e|msg]; cbn.
  { destruct (is_Exception e); reflexivity. }
  destruct (get_library_df world) as [e|df]; cbn.
  { destruct (is_Exception e); reflexivity. }
  destruct (df_empty df).
  { destruct dir; reflexivity. }
  cbn [add_log add_call st_fs].
  set (st1 := add_log _ _).
  assert (Hfs : st_fs (snd (process_rows dir (iterrows df) 0 st1))
                = match dir with
                  | Some d => if truthy d
                              then apply_writes (st_fs st)
                                     (write_plan d (iterrows df))
                              else st_fs st
                  | None => st_fs st
                  end).
  { destruct dir as [d|].
    - destruct (truthy d) eqn:Hd.
      + rewrite (process_rows_fs _ _ _ _ Hd). reflexivity.
      + rewrite process_rows_simulated_fs by exact Hd. reflexivity.
    - rewrite process_rows_simulated_fs by reflexivity. reflexivity. }
  destruct (process_rows dir (iterrows df) 0 st1) as [[e|m] st2]; cbn in *.
  - destruct (is_Exception e); cbn; rewrite Hfs; destruct dir; reflexivity.
  - rewrite Hfs. destruct dir; reflexivity.
Qed.

Lemma export_fs_simulated world dir fs :
  truthy_opt dir = false -> export_fs world dir fs = fs.
Proof.
  intros H. unfold export_fs.
  destruct (sync_zotero_collection world); [reflexivity|].
  destruct (get_library_df world) as [e|df]; [reflexivity|].
  destruct dir as [d|]; [|reflexivity].
  cbn in H. rewrite H. destruct (df_empty df); reflexivity.
Qed.


(** Whatever the [try] block of [main] does to the file system is done by
    [process_papers]. *)
Lemma guarded_fs world args st :
  st_fs (snd (guarded world args st)) = st_fs st
  \/ st_fs (snd (guarded world args st))
     = export_fs world (export_directory args) (st_fs st).
Proof.
  unfold guarded, try_except. run_monad.
  destruct (ZoteroClient_init world _ _ _) as [e|[]]; cbn.
  { left. destruct (is_KeyboardInterrupt e); [reflexivity|].
    destruct (is_Exception e); [|reflexivity].
    destruct (verbose args); reflexivity. }
  destruct (OpenAlexClient_init world) as [e|[]]; cbn.
  { left. destruct (is_KeyboardInterrupt e); [reflexivity|].
    destruct (is_Exception e); [|reflexivity].
    destruct (verbose args); reflexivity. }
  destruct (PaperLibrary_new world _) as [e|[]]; cbn.
  { left. destruct (is_KeyboardInterrupt e); [reflexivity|].
    destruct (is_Exception e); [|reflexivity].
    destruct (verbose args); reflexivity. }
  right. fold (clients_ready args st). fold (export_directory args).
  pose proof (process_papers_fs world (export_directory args)
                (clients_ready args st)) as H.
  destruct (process_papers world (export_directory args)
              (clients_ready args st)) as [[e|[]] st1]; cbn in *.
  - destruct (is_KeyboardInterrupt e); [exact H|].
    destruct (is_Exception e); [|exact H].
    destruct (verbose args); exact H.
  - exact H.
Qed.




Lemma validate_args_fatal_directory args st d :
  obsidian_directory args = Some d ->
  truthy d = true ->
  (path_exists (st_fs st) (Path d) = false
   /\ exists e, mkdir_parents (st_fs st) (Path d) = inl e)
  \/ (path_exists (st_fs st) (Path d) = true
      /\ path_is_dir (st_fs st) (Path d) = false) ->
  exists st', validate_args args st = (inl (SystemExit 1), st').
Proof.
  intros Hd Ht H. unfold validate_args, try_except, mkdir. run_monad.
  destruct (invalid_library_type (zotero_library_type args)); [eauto|].
  rewrite Hd, Ht.
  destruct H as [[He (e & Hm)]|[He Hi]]; rewrite He; cbn.
  - rewrite Hm. cbn. rewrite (mkdir_parents_OSError _ _ _ Hm). eauto.
  - rewrite Hi. cbn. eauto.
Qed.

Lemma run_fatal_directory world args st d :
  obsidian_directory args = Some d ->
  truthy d = true ->
  (path_exists (st_fs st) (Path d) = false
   /\ exists e, mkdir_parents (st_fs st) (Path d) = inl e)
  \/ (path_exists (st_fs st) (Path d) = true
      /\ path_is_dir (st_fs st) (Path d) = false) ->
  fst (run world args st) = Exit 1
  /\ st_calls (snd (run world args st)) = st_calls st.
Proof.
  intros Hd Ht H. set (st0 := if verbose args then add_sink st else st).
  assert (Hfs : st_fs st0 = st_fs st)
    by (unfold st0; destruct (verbose args); reflexivity).
  assert (Hc : st_calls st0 = st_calls st)
    by (unfold st0; destruct (verbose args); reflexivity).
  rewrite <- Hfs in H.
  destruct (validate_args_fatal_directory args st0 d Hd Ht H) as (st' & Hv).
  pose proof (validate_args_calls args st0) as Hvc. rewrite Hv in Hvc.
  unfold run. rewrite (main_validate_exits world args st 1 st' Hv).
  cbn in *. split; [reflexivity | congruence].
Qed.

(** C8: for a supplied output directory (a non-empty string from the flag or
    the environment variable): when the path does not exist, validation
    creates it with its parents, after which it is a directory; when the
    creation fails, the process exits with status 1; when the path exists
    and is not a directory, the process exits with status 1.  In both fatal
    cases no collaborator has been called. *)
Theorem C8_output_directory_validated world args st d :
  obsidian_directory args = Some d ->
  truthy d = true ->
  (invalid_library_type (zotero_library_type args) = false ->
   path_exists (st_fs st) (Path d) = false ->
   forall fs', mkdir_parents (st_fs st) (Path d) = inr fs' ->
     validate_args args st
     = (inr tt, add_log (Log INFO ("Created directory: " +:+ d))
                  (set_fs fs' st))
     /\ path_is_dir fs' (Path d) = true)
  /\ (path_exists (st_fs st) (Path d) = false ->
      forall e, mkdir_parents (st_fs st) (Path d) = inl e ->
        fst (run world args st) = Exit 1
        /\ st_calls (snd (run world args st)) = st_calls st)
  /\ (path_exists (st_fs st) (Path d) = true ->
      path_is_dir (st_fs st) (Path d) = false ->
      fst (run world args st) = Exit 1
      /\ st_calls (snd (run world args st)) = st_calls st).
Proof.
  intros Hd Ht. split; [|split].
  - intros Hl He fs' Hm. split; [|apply (mkdir_parents_is_dir _ _ _ Hm)].
    unfold validate_args, try_except, mkdir. run_monad.
    rewrite Hl, Hd, Ht, He. cbn. rewrite Hm. reflexivity.
  - intros He e Hm. apply (run_fatal_directory world args st d Hd Ht).
    left. eauto.
  - intros He Hi. apply (run_fatal_directory world args st d Hd Ht).
    right. auto.
Qed.



Lemma startup_inr args st args' st' :
  startup args st = (inr args', st') ->
  let st0 := if verbose args then add_sink st else st in
  exists st1,
    validate_args args st0 = (inr tt, st1)
    /\ get_interactive_input args st1 = (inr args', st').
Proof.
  intros H. unfold startup in H.
  apply bind_inr in H as ([] & st0 & H0 & H).
  apply bind_inr in H as ([] & st1 & H1 & H).
  assert (st0 = if verbose args then add_sink st else st) as ->.
  { destruct (verbose args); injection H0 as <-; reflexivity. }
  cbv zeta. eauto.
Qed.

Lemma startup_fs args st :
  st_fs (snd (startup args st)) = st_fs st
  \/ exists d, obsidian_directory args = Some d /\ truthy d = true
               /\ path_exists (st_fs st) (Path d) = false
               /\ mkdir_parents (st_fs st) (Path d)
                  = inr (st_fs (snd (startup args st))).
Proof.
  set (st0 := if verbose args then add_sink st else st).
  assert (H0 : st_fs st0 = st_fs st)
    by (unfold st0; destruct (verbose args); reflexivity).
  assert (Hs : st_fs (snd (startup args st))
               = st_fs (snd (validate_args args st0))).
  { unfold startup. run_monad.
    replace ((if verbose args then _ else _) st) with (@inr exn unit tt, st0)
      by (unfold st0; destruct (verbose args); reflexivity).
    destruct (validate_args args st0) as [[e|[]] st1]; [reflexivity|].
    destruct (get_interactive_input_frame args st1) as [Hg _].
    destruct (get_interactive_input args st1) as [[e|a] st2]; exact Hg. }
  rewrite Hs, <- H0. apply validate_args_fs.
Qed.

(** Below a missing directory every planned write fails, so the loop leaves
    the file system as it is. *)
Lemma apply_writes_below_missing fs d rows :
  (forall v s, sanitize_filename v = inr s -> no_slash s = true) ->
  path_is_dir fs (Path d) = false ->
  apply_writes fs (write_plan d rows) = fs.
Proof.
  intros Hsan Hdir. induction rows as [|row rest IH]; [reflexivity|].
  cbn [write_plan]. destruct (has_fulltext (snd row)); [|exact IH].
  destruct (series_getitem "fulltext" (snd row)) as [e|ft]; [reflexivity|].
  destruct (series_getitem "title" (snd row)) as [e|title]; [reflexivity|].
  destruct (sanitize_filename title) as [e|name] eqn:Hs.
  { destruct (is_OSError e); [exact IH | reflexivity]. }
  cbn [apply_writes].
  destruct (open_w_below_missing fs d name Hdir (Hsan _ _ Hs)) as (e & -> & _).
  exact IH.
Qed.

(** C10: a directory entered at the prompt is neither checked nor created.
    When no directory is supplied, validation does nothing but the check of
    the library type, and prompting leaves the file system as it is; the
    answer to the prompt goes to the export as it was typed (trimmed).  If
    that directory does not exist, the write of every qualifying record
    fails with an [OSError] that is logged for the record and is not fatal:
    the record is not counted and the loop goes on, on a file system that
    stays as it was. *)
Theorem C10_prompted_directory_not_validated args st args' st' d :
  truthy_opt (obsidian_directory args) = false ->
  startup args st = (inr args', st') ->
  obsidian_directory args' = Some d ->
  (forall s, validate_args args s = (inr tt, s))
  /\ st_fs st' = st_fs st
  /\ truthy d = true
  /\ (path_exists (st_fs st') (Path d) = false ->
      (forall row n st1 title name,
         st_fs st1 = st_fs st' ->
         has_fulltext (snd row) = true ->
         series_getitem "title" (snd row) = inr title ->
         sanitize_filename title = inr name ->
         no_slash name = true ->
         exists e,
           is_OSError e = true
           /\ process_paper (Some d) row n st1
              = (inr n, add_log (Log ERROR (failed_message title e)) st1))
      /\ ((forall v s, sanitize_filename v = inr s -> no_slash s = true) ->
          forall rows n st1,
            st_fs st1 = st_fs st' ->
            st_fs (snd (process_rows (Some d) rows n st1)) = st_fs st')).
Proof.
  intros Hno Hs Hd.
  destruct (startup_inr _ _ _ _ Hs) as (st1 & Hv & Hg).
  rewrite (validate_args_no_directory _ _ Hno) in Hv.
  destruct (invalid_library_type (zotero_library_type args)) eqn:Hl;
    [discriminate|].
  injection Hv as <-.
  pose proof (get_interactive_input_directory _ _ _ _ _ Hno Hg Hd) as Ht.
  split; [|split; [|split; [exact Ht|]]].
  - intros s. rewrite (validate_args_no_directory _ _ Hno), Hl. reflexivity.
  - destruct (get_interactive_input_frame args
                (if verbose args then add_sink st else st)) as [Hfs _].
    rewrite Hg in Hfs. cbn in Hfs. rewrite Hfs.
    destruct (verbose args); reflexivity.
  - intros He. apply path_exists_is_dir in He. split.
    + intros row n st2 title name Hfs Hft Htitle Hsan Hname.
      rewrite <- Hfs in He.
      destruct (open_w_below_missing _ d name He Hname) as (e & Ho & Hos).
      exists e. split; [exact Hos|].
      apply (process_paper_write_fails _ _ _ _ _ _ _ Hft Htitle Ht Hsan Ho).
    + intros Hsan rows n st2 Hfs.
      rewrite (process_rows_fs _ _ _ _ Ht), Hfs.
      apply apply_writes_below_missing; assumption.
Qed.

(** C4, as the code has it: with the dry-run flag set, or with no output
    directory configured after prompting, the export writes nothing;
    [process_papers] without a directory leaves the file system as it is,
    for every result table.  Over the whole run the file system is then
    unchanged, except that argument validation, which runs before and does
    not look at the flag, has created a supplied output directory that did
    not exist. *)
Theorem C4_no_export_writes world :
  (forall dir st,
     truthy_opt dir = false ->
     st_fs (snd (process_papers world dir st)) = st_fs st)
  /\ (forall args st,
        dry_run args = true
        \/ (forall args' st',
              startup args st = (inr args', st') ->
              truthy_opt (obsidian_directory args') = false) ->
        let r := main world args st in
        st_fs (snd r) = st_fs st
        \/ exists d, obsidian_directory args = Some d /\ truthy d = true
                     /\ path_exists (st_fs st) (Path d) = false
                     /\ mkdir_parents (st_fs st) (Path d)
                        = inr (st_fs (snd r))).
Proof.
  split.
  - intros dir st H. rewrite process_papers_fs. apply export_fs_simulated, H.
  - intros args st H. cbv zeta.
    assert (Hm : st_fs (snd (main world args st))
                 = st_fs (snd (startup args st))).
    { rewrite main_startup.
      destruct (startup args st) as [[e|args'] st'] eqn:Hs; [reflexivity|].
      cbn [snd].
      assert (Hdir : truthy_opt (export_directory args') = false).
      { unfold export_directory. destruct H as [H|H].
        - destruct (startup_inr _ _ _ _ Hs) as (st1 & _ & Hg).
          apply get_interactive_input_keeps in Hg as [-> _].
          rewrite H. reflexivity.
        - destruct (dry_run args'); [reflexivity|]. eapply H. reflexivity. }
      destruct (guarded_fs world args' st') as [Hg|Hg]; [exact Hg|].
      rewrite Hg. apply export_fs_simulated, Hdir. }
    rewrite Hm. apply startup_fs.
Qed.

(** An interrupt that arrives while the program waits at the first prompt
    is raised outside the [try] block of [main]: nothing catches it. *)
Lemma interrupt_at_prompt world args st st1 rest :
  validate_args args (if verbose args then add_sink st else st)
  = (inr tt, st1) ->
  truthy_opt (zotero_api_key args) = false ->
  st_stdin st1 = CtrlC :: rest ->
  run world args st = (Uncaught KeyboardInterrupt, set_stdin rest st1).
Proof.
  intros Hv Hk Hin. unfold run. rewrite main_startup.
  unfold startup, get_interactive_input, getpass, input. run_monad.
  destruct (verbose args); rewrite Hv, Hk; cbn; rewrite Hin; reflexivity.
Qed.

(** An interrupt raised inside the [try] block, here by the first
    collaborator, is caught by the handler of [main]: exit status 0. *)
Lemma interrupt_in_try world args st args' st' :
  startup args st = (inr args', st') ->
  ZoteroClient_init world (zotero_api_key args') (zotero_library_id args')
    (zotero_library_type args') = inl KeyboardInterrupt ->
  fst (run world args st) = Exit 0.
Proof.
  intros Hs Hz. unfold run. rewrite main_startup, Hs.
  unfold guarded, try_except. run_monad. rewrite Hz. reflexivity.
Qed.

(** ** Further properties: prompting *)

(** X1: when the API key, the library id, the collection key and the
    output directory are all supplied (non-empty), [get_interactive_input]
    asks nothing: the pending input, the log and the namespace are left as
    they are. *)
Theorem X1_no_prompt_when_supplied args st :
  truthy_opt (zotero_api_key args) = true ->
  truthy_opt (zotero_library_id args) = true ->
  truthy_opt (zotero_collection_key args) = true ->
  truthy_opt (obsidian_directory args) = true ->
  get_interactive_input args st = (inr args, st).
Proof.
  intros Hk Hi Hc Hd. unfold get_interactive_input. run_monad.
  rewrite Hk, Hi, Hc, Hd. destruct args; reflexivity.
Qed.

(** X2: an answer that is blank after trimming to the prompt of the first
    missing credential (API key, library id, collection key, in this order)
    is fatal: the matching error is logged and the process is asked to exit
    with status 1, the rest of the input unread.  A blank answer to the
    prompt for the output directory is accepted: the directory stays
    unset. *)
Theorem X2_blank_answer args st answer rest :
  st_stdin st = Line answer :: rest ->
  has_nonspace answer = false ->
  (truthy_opt (zotero_api_key args) = false ->
   get_interactive_input args st
   = (inl (SystemExit 1),
      add_log (Log ERROR "Zotero API key is required") (set_stdin rest st)))
  /\ (truthy_opt (zotero_api_key args) = true ->
      truthy_opt (zotero_library_id args) = false ->
      get_interactive_input args st
      = (inl (SystemExit 1),
         add_log (Log ERROR "Zotero library ID is required")
           (set_stdin rest st)))
  /\ (truthy_opt (zotero_api_key args) = true ->
      truthy_opt (zotero_library_id args) = true ->
      truthy_opt (zotero_collection_key args) = false ->
      get_interactive_input args st
      = (inl (SystemExit 1),
         add_log (Log ERROR "Zotero collection key is required")
           (set_stdin rest st)))
  /\ (truthy_opt (zotero_api_key args) = true ->
      truthy_opt (zotero_library_id args) = true ->
      truthy_opt (zotero_collection_key args) = true ->
      truthy_opt (obsidian_directory args) = false ->
      get_interactive_input args st
      = (inr {| zotero_api_key := zotero_api_key args;
                zotero_library_id := zotero_library_id args;
                zotero_collection_key := zotero_collection_key args;
                zotero_library_type := zotero_library_type args;
                obsidian_directory := None;
                dry_run := dry_run args;
                verbose := verbose args |},
         set_stdin rest st)).
Proof.
  intros Hin Hblank. rewrite <- strip_truthy in Hblank.
  repeat split; intros; unfold get_interactive_input, getpass, input;
    run_monad;
    repeat match goal with H : truthy_opt _ = _ |- _ => rewrite H; clear H end;
    cbn; rewrite Hin, Hblank; reflexivity.
Qed.

(** X3: with nothing supplied, the four prompts are answered in the order
    API key, library id, collection key, output directory, one line each.
    The API key is kept exactly as typed; the library id, the collection key
    and the directory are kept trimmed; a blank directory stays unset. *)
Theorem X3_prompt_order_and_trimming args st k i c d rest :
  truthy_opt (zotero_api_key args) = false ->
  truthy_opt (zotero_library_id args) = false ->
  truthy_opt (zotero_collection_key args) = false ->
  truthy_opt (obsidian_directory args) = false ->
  st_stdin st = Line k :: Line i :: Line c :: Line d :: rest ->
  has_nonspace k = true ->
  has_nonspace i = true ->
  has_nonspace c = true ->
  get_interactive_input args st
  = (inr {| zotero_api_key := Some k;
            zotero_library_id := Some (strip i);
            zotero_collection_key := Some (strip c);
            zotero_library_type := zotero_library_type args;
            obsidian_directory :=
              if has_nonspace d then Some (strip d) else None;
            dry_run := dry_run args;
            verbose := verbose args |},
     set_stdin rest st).
Proof.
  intros Hk Hi Hc Hd Hin Nk Ni Nc.
  rewrite <- strip_truthy in Nk, Ni, Nc. rewrite <- (strip_truthy d).
  unfold get_interactive_input, getpass, input. run_monad.
  rewrite Hk, Hi, Hc, Hd. cbn. rewrite Hin, Nk. cbn. rewrite Ni. cbn.
  rewrite Nc. cbn. reflexivity.
Qed.

(** X4: when the input ends while the program waits at the prompt for the
    API key, nothing handles the [EOFError]: the process ends on the
    uncaught exception, without a logged error and before any collaborator
    is called. *)
Theorem X4_end_of_input_at_prompt world args st st1 :
  validate_args args (if verbose args then add_sink st else st)
  = (inr tt, st1) ->
  truthy_opt (zotero_api_key args) = false ->
  (st_stdin st1 = [] \/ exists rest, st_stdin st1 = EndOfInput :: rest) ->
  fst (run world args st) = Uncaught EOFError
  /\ st_log (snd (run world args st)) = st_log st1
  /\ st_calls (snd (run world args st)) = st_calls st1.
Proof.
  intros Hv Hk Hin. unfold run. rewrite main_startup.
  unfold startup, get_interactive_input, getpass, input. run_monad.
  destruct (verbose args); rewrite Hv, Hk; cbn;
    destruct Hin as [->|(rest & ->)]; cbn; auto.
Qed.

(** ** Further properties: validation *)

Lemma path_is_dir_exists fs p :
  path_is_dir fs p = true -> path_exists fs p = true.
Proof.
  unfold path_is_dir, path_exists.
  destruct (stat (fs_nodes fs) (locate fs p)) as [e|[|c]];
    [discriminate | reflexivity | discriminate].
Qed.

(** Creating directories adds directory nodes where there was nothing and
    changes nothing else. *)
Lemma makedirs_adds_dirs nodes pre comps nodes' :
  makedirs nodes pre comps = inr nodes' ->
  forall k, nodes' !! k = nodes !! k
            \/ (nodes !! k = None /\ nodes' !! k = Some Dir).
Proof.
  revert nodes pre. induction comps as [|c cs IH]; intros nodes pre; cbn.
  - intros [= <-] k. auto.
  - destruct (nodes !! (pre ++ [c])) as [[|content]|] eqn:E.
    + apply IH.
    + discriminate.
    + intros H k. destruct (IH _ _ H k) as [Hk|[Hk1 Hk2]].
      * destruct (decide (pre ++ [c] = k)) as [<-|Hne].
        -- rewrite lookup_insert_eq in Hk. auto.
        -- rewrite lookup_insert_ne in Hk by exact Hne. auto.
      * destruct (decide (pre ++ [c] = k)) as [<-|Hne].
        -- rewrite lookup_insert_eq in Hk1. discriminate.
        -- rewrite lookup_insert_ne in Hk1 by exact Hne. auto.
Qed.

(** What [validate_args] returns when it returns. *)
Lemma validate_args_inr args st st' :
  validate_args args st = (inr tt, st') ->
  invalid_library_type (zotero_library_type args) = false
  /\ ((truthy_opt (obsidian_directory args) = false /\ st' = st)
      \/ exists d,
           obsidian_directory args = Some d /\ truthy d = true
           /\ ((path_is_dir (st_fs st) (Path d) = true /\ st' = st)
               \/ exists fs',
                    path_exists (st_fs st) (Path d) = false
                    /\ mkdir_parents (st_fs st) (Path d) = inr fs'
                    /\ st' = add_log (Log INFO ("Created directory: " +:+ d))
                               (set_fs fs' st))).
Proof.
  unfold validate_args, try_except, mkdir. run_monad.
  destruct (invalid_library_type (zotero_library_type args)); [discriminate|].
  destruct (obsidian_directory args) as [d|] eqn:Hd;
    [|intros [= <-]; auto].
  destruct (truthy d) eqn:Ht; [|intros [= <-]; cbn; rewrite Ht; auto].
  destruct (path_exists (st_fs st) (Path d)) eqn:He; cbn.
  - destruct (path_is_dir (st_fs st) (Path d)) eqn:Hi; cbn;
      [|discriminate].
    intros [= <-]. split; [reflexivity|]. right. exists d. auto.
  - destruct (mkdir_parents (st_fs st) (Path d)) as [e|fs'] eqn:Hm; cbn.
    + destruct (is_OSError e); discriminate.
    + intros [= <-]. split; [reflexivity|]. right. exists d.
      split; [reflexivity|]. split; [exact Ht|]. right. exists fs'. auto.
Qed.

(** X5: validation is idempotent.  Once [validate_args] has returned, a
    second validation of the same namespace returns too and changes
    nothing: the directory it may have created is found and accepted. *)
Theorem X5_validate_args_idempotent args st st' :
  validate_args args st = (inr tt, st') ->
  validate_args args st' = (inr tt, st').
Proof.
  intros H. apply validate_args_inr in H as [Hl H].
  assert (Hok : forall d s,
            obsidian_directory args = Some d -> truthy d = true ->
            path_is_dir (st_fs s) (Path d) = true ->
            validate_args args s = (inr tt, s)).
  { intros d s Hd Ht Hi. unfold validate_args. run_monad.
    rewrite Hl, Hd, Ht, (path_is_dir_exists _ _ Hi), Hi. reflexivity. }
  destruct H as [[Hno ->]|(d & Hd & Ht & [[Hi ->]|(fs' & He & Hm & ->)])].
  - rewrite (validate_args_no_directory _ _ Hno), Hl. reflexivity.
  - apply (Hok d st Hd Ht Hi).
  - apply (Hok d _ Hd Ht). apply (mkdir_parents_is_dir _ _ _ Hm).
Qed.

(** X6: validation never destroys anything.  Whether it returns or exits,
    every file and directory that was there is still there, with the same
    content, and anything new is a directory. *)
Theorem X6_validate_args_keeps_nodes args st k :
  let fs' := st_fs (snd (validate_args args st)) in
  fs_cwd fs' = fs_cwd (st_fs st)
  /\ (fs_nodes fs' !! k = fs_nodes (st_fs st) !! k
      \/ (fs_nodes (st_fs st) !! k = None /\ fs_nodes fs' !! k = Some Dir)).
Proof.
  cbv zeta. destruct (validate_args_fs args st) as [->|(d & _ & _ & _ & Hm)];
    [auto|].
  unfold mkdir_parents in Hm.
  destruct (makedirs (fs_nodes (st_fs st)) [] (locate (st_fs st) (Path d)))
    as [e|nodes'] eqn:E; [discriminate|].
  injection Hm as Hm. rewrite <- Hm. cbn. split; [reflexivity|].
  apply (makedirs_adds_dirs _ _ _ _ E).
Qed.

(** X7: validation establishes the output directory.  When
    [validate_args] has returned for a supplied (non-empty) directory, that
    path exists and is a directory in the state it leaves, whether it was
    found or has just been created. *)
Theorem X7_validated_directory_is_directory args st st' d :
  validate_args args st = (inr tt, st') ->
  obsidian_directory args = Some d ->
  truthy d = true ->
  path_exists (st_fs st') (Path d) = true
  /\ path_is_dir (st_fs st') (Path d) = true.
Proof.
  intros Hv Hd Ht.
  assert (Hdir : path_is_dir (st_fs st') (Path d) = true).
  { apply validate_args_inr in Hv as [_ H].
    destruct H as [[Hno _]|(d' & Hd' & _ & H)].
    - rewrite Hd in Hno. cbn in Hno. congruence.
    - rewrite Hd in Hd'. injection Hd' as <-.
      destruct H as [[Hi ->]|(fs' & _ & Hm & ->)]; [exact Hi|].
      apply (mkdir_parents_is_dir _ _ _ Hm). }
  split; [apply path_is_dir_exists, Hdir | exact Hdir].
Qed.

(** ** Further properties: the export *)

(** X8: an empty result table (no rows, or no columns) is not an error.
    After the synchronization message, [process_papers] logs one warning
    and returns; no record is looked at, whatever the directory. *)
Theorem X8_empty_table world dir st msg df :
  sync_zotero_collection world = inr msg ->
  get_library_df world = inr df ->
  (df_rows df = [] \/ df_columns df = []) ->
  process_papers world dir st
  = (inr tt,
     add_log (Log WARNING "No papers found in the library.")
       (add_call CallGetLibraryDf
          (add_log (Log INFO msg) (add_call CallSync st)))).
Proof.
  intros Hs Hd He.
  assert (Hempty : df_empty df = true).
  { unfold df_empty. destruct He as [->| ->]; [|reflexivity].
    destruct (df_columns df); reflexivity. }
  unfold process_papers, try_except. run_monad.
  rewrite Hs. cbn. rewrite Hd. cbn. rewrite Hempty. reflexivity.
Qed.

Lemma series_getitem_missing label paper :
  series_contains label paper = false ->
  series_getitem label paper = inl (KeyError label).
Proof.
  induction paper as [|[l v] rest IH]; cbn; [reflexivity|].
  destruct (String.eqb l label); [discriminate|]. exact IH.
Qed.

(** [process_papers] once the result table is there and is not empty. *)
Lemma process_papers_rows world dir st msg df :
  sync_zotero_collection world = inr msg ->
  get_library_df world = inr df ->
  df_empty df = false ->
  process_papers world dir st
  = match process_rows dir (iterrows df) 0
            (add_log (Log INFO ("Found " +:+ pretty (df_len df)
                                +:+ " papers in the library."))
               (add_call CallGetLibraryDf
                  (add_log (Log INFO msg) (add_call CallSync st)))) with
    | (inr processed_count, st') =>
        (inr tt,
         add_log (Log INFO ("Successfully processed "
                            +:+ pretty processed_count +:+ " papers")) st')
    | (inl e, st') =>
        if is_Exception e
        then (inl (SystemExit 1),
              add_log (Log ERROR ("Error processing papers: " +:+ exn_str e))
                st')
        else (inl e, st')
    end.
Proof.
  intros Hs Hd He. unfold process_papers, try_except. run_monad.
  rewrite Hs. cbn. rewrite Hd. cbn. rewrite He.
  match goal with
  | |- context [process_rows dir (iterrows df) 0 ?s] =>
      destruct (process_rows dir (iterrows df) 0 s) as [[e|c] st']
  end; [|reflexivity].
  cbn. destruct (is_Exception e); reflexivity.
Qed.

(** X9: a record that has a full text and no title ends the export.  The
    [KeyError] is not an [OSError], so the handler of the record does not
    catch it: the records after it are not looked at, the files written
    before stay, and [process_papers] logs the error and asks for exit
    status 1. *)
Theorem X9_missing_title_aborts world dir st msg df before row after m st' :
  sync_zotero_collection world = inr msg ->
  get_library_df world = inr df ->
  df_empty df = false ->
  iterrows df = before ++ row :: after ->
  process_rows dir before 0
    (add_log (Log INFO ("Found " +:+ pretty (df_len df)
                        +:+ " papers in the library."))
       (add_call CallGetLibraryDf
          (add_log (Log INFO msg) (add_call CallSync st))))
  = (inr m, st') ->
  has_fulltext (snd row) = true ->
  series_contains "title" (snd row) = false ->
  process_papers world dir st
  = (inl (SystemExit 1),
     add_log (Log ERROR "Error processing papers: 'title'") st').
Proof.
  intros Hs Hd He Hrows Hb Hft Hno.
  apply series_getitem_missing in Hno.
  rewrite (process_papers_rows _ _ _ _ _ Hs Hd He).
  rewrite Hrows, process_rows_app, Hb.
  rewrite process_rows_cons, (process_paper_no_title _ _ _ _ _ Hft Hno).
  reflexivity.
Qed.

(** X10: what [sanitize_filename] raises is sorted by the two handlers.
    An [OSError] is handled like a failed write: logged for the record,
    which is not counted, and the loop goes on.  Any other exception leaves
    the loop at once, with the records after it unprocessed. *)
Theorem X10_sanitize_raises d before row after n st m st' title e :
  truthy d = true ->
  process_rows (Some d) before n st = (inr m, st') ->
  has_fulltext (snd row) = true ->
  series_getitem "title" (snd row) = inr title ->
  sanitize_filename title = inl e ->
  process_rows (Some d) (before ++ row :: after) n st
  = if is_OSError e
    then process_rows (Some d) after m
           (add_log (Log ERROR (failed_message title e)) st')
    else (inl e, st').
Proof.
  intros Hd Hb Hft Ht Hs.
  rewrite process_rows_app, Hb, process_rows_cons.
  rewrite (process_paper_sanitize_raises _ _ _ _ _ _ Hft Ht Hd Hs).
  destruct (is_OSError e); reflexivity.
Qed.

(** X11: without an output directory (dry run, or none given), every
    record with a full text is counted, provided it has a title: the loop
    returns the number of qualifying records added to the counter, and
    the file system is as before. *)
Theorem X11_simulated_count dir rows n st :
  truthy_opt dir = false ->
  (forall row, In row rows -> has_fulltext (snd row) = true ->
               series_contains "title" (snd row) = true) ->
  fst (process_rows dir rows n st) = inr (n + qualifying rows)
  /\ st_fs (snd (process_rows dir rows n st)) = st_fs st.
Proof.
  intros Hd Htitles. split; [|apply process_rows_simulated_fs, Hd].
  revert n st. induction rows as [|row rest IH]; intros n st.
  - cbn. f_equal. unfold qualifying. cbn. lia.
  - rewrite process_rows_cons. unfold qualifying. cbn [List.filter].
    destruct (has_fulltext (snd row)) eqn:Hft.
    + destruct (proj1 (series_contains_getitem "title" (snd row))
                  (Htitles row (or_introl eq_refl) Hft)) as (title & Ht).
      rewrite (process_paper_simulated _ _ _ _ _ Hft Ht Hd).
      rewrite IH by (intros r Hr; apply Htitles; right; exact Hr).
      f_equal. unfold qualifying. cbn [length]. lia.
    + rewrite (process_paper_skip _ _ _ _ Hft).
      apply IH. intros r Hr. apply Htitles. right. exact Hr.
Qed.

(** One record: exactly one log entry; the counter goes up by one with an
    INFO entry on a qualifying record, or stays with a WARNING or ERROR. *)
Lemma process_paper_accounting dir row n st m st' :
  process_paper dir row n st = (inr m, st') ->
  exists o,
    st_log st' = st_log st ++ [o]
    /\ ((m = n /\ is_info o = false)
        \/ (m = n + 1 /\ is_info o = true
            /\ has_fulltext (snd row) = true)).
Proof.
  destruct (has_fulltext (snd row)) eqn:Hft.
  2:{ rewrite (process_paper_skip _ _ _ _ Hft). intros [= <- <-].
      eexists. split; [reflexivity|]. left. auto. }
  destruct (series_getitem "title" (snd row)) as [e|title] eqn:Ht.
  { rewrite (process_paper_no_title _ _ _ _ _ Hft Ht). discriminate. }
  destruct (truthy_opt dir) eqn:Hd.
  2:{ rewrite (process_paper_simulated _ _ _ _ _ Hft Ht Hd).
      intros [= <- <-]. eexists. split; [reflexivity|]. right. auto. }
  destruct dir as [d|]; [|discriminate]. cbn in Hd.
  destruct (sanitize_filename title) as [e|name] eqn:Hs.
  { rewrite (process_paper_sanitize_raises _ _ _ _ _ _ Hft Ht Hd Hs).
    destruct (is_OSError e); [|discriminate].
    intros [= <- <-]. eexists. split; [reflexivity|]. left. auto. }
  pose proof Hft as (s & Hfull & Hn)%has_fulltext_spec.
  destruct (open_w (st_fs st) (file_path d name)) as [e|fs'] eqn:Ho.
  - rewrite (process_paper_write_fails _ _ _ _ _ _ _ Hft Ht Hd Hs Ho).
    intros [= <- <-]. eexists. split; [reflexivity|]. left. auto.
  - rewrite (process_paper_written _ _ _ _ _ _ _ _ Hfull Hn Ht Hd Hs Ho).
    intros [= <- <-]. eexists. split; [reflexivity|]. right. auto.
Qed.

(** X12: the loop accounts for every record.  When it runs to its end, it
    has logged exactly one entry per record; the counter has gone up by the
    number of INFO entries (saved, or would be processed), which is at most
    the number of qualifying records. *)
Theorem X12_loop_accounting dir rows n st m st' :
  process_rows dir rows n st = (inr m, st') ->
  length (st_log st') = length (st_log st) + length rows
  /\ m + info_entries (st_log st) = n + info_entries (st_log st')
  /\ n <= m <= n + qualifying rows.
Proof.
  revert n st. induction rows as [|row rest IH]; intros n st.
  - intros [= <- <-]. unfold qualifying. cbn. lia.
  - rewrite process_rows_cons.
    destruct (process_paper dir row n st) as [[e|k] st1] eqn:Hp;
      [discriminate|].
    intros Hrest. apply IH in Hrest as (Hlen & Hinfo & Hle).
    apply process_paper_accounting in Hp as (o & Hlog & Hcase).
    rewrite Hlog in *. unfold info_entries, qualifying in *.
    rewrite List.filter_app, !length_app in *. cbn [List.filter length] in *.
    destruct Hcase as [[-> Ho]|(-> & Ho & Hft)]; rewrite Ho in *;
      [|rewrite Hft]; destruct (has_fulltext (snd row)); cbn [length] in *;
      lia.
Qed.

(** X13: there is no collision detection.  When two records are given the
    same file name by the sanitizer, both are saved and counted, and the
    file ends up with the text of the second. *)
Theorem X13_same_name_overwrites d row1 row2 n st
    (fulltext1 fulltext2 : string) title1 title2 name :
  truthy d = true ->
  series_getitem "fulltext" (snd row1) = inr (VStr fulltext1) ->
  has_nonspace fulltext1 = true ->
  series_getitem "title" (snd row1) = inr title1 ->
  series_getitem "fulltext" (snd row2) = inr (VStr fulltext2) ->
  has_nonspace fulltext2 = true ->
  series_getitem "title" (snd row2) = inr title2 ->
  sanitize_filename title1 = inr name ->
  sanitize_filename title2 = inr name ->
  writable (st_fs st) (file_path d name) = true ->
  let r := process_rows (Some d) [row1; row2] n st in
  fst r = inr (n + 1 + 1)
  /\ read_file (st_fs (snd r)) (file_path d name)
     = Some (markdown_text title2 fulltext2).
Proof.
  intros Hd Hf1 Hn1 Ht1 Hf2 Hn2 Ht2 Hs1 Hs2 Hw. cbv zeta.
  pose proof Hw as Hw'. unfold writable in Hw.
  destruct (open_w (st_fs st) (file_path d name)) as [e|fs1] eqn:Ho1;
    [discriminate|].
  rewrite process_rows_cons.
  rewrite (process_paper_written _ _ _ _ _ _ _ _ Hf1 Hn1 Ht1 Hd Hs1 Ho1).
  set (st1 := add_log _ _). rewrite process_rows_cons.
  assert (Hw2 : writable (st_fs st1) (file_path d name) = true).
  { unfold st1. cbn [add_log set_fs st_fs].
    rewrite (open_then_write _ _ _ _ Ho1).
    rewrite open_w_writable in *. cbn.
    rewrite key_writable_insert_file
      by (apply key_writable_not_dir, Hw').
    exact Hw'. }
  unfold writable in Hw2.
  destruct (open_w (st_fs st1) (file_path d name)) as [e|fs2] eqn:Ho2;
    [discriminate|].
  rewrite (process_paper_written _ _ _ _ _ _ _ _ Hf2 Hn2 Ht2 Hd Hs2 Ho2).
  cbn [process_rows fst snd add_log set_fs st_fs mret M_ret].
  split; [reflexivity|]. apply (read_after_write _ _ _ _ Ho2).
Qed.

(** X14: the export only creates or overwrites regular files.  Whatever
    [process_papers] does, normally or not: the working directory is the
    same; every directory is still a directory; every node that was there
    is still there; and a node that differs from before is a regular
    file. *)
Theorem X14_export_only_writes_files world dir st k :
  let fs := st_fs st in
  let fs' := st_fs (snd (process_papers world dir st)) in
  fs_cwd fs' = fs_cwd fs
  /\ (fs_nodes fs !! k = Some Dir -> fs_nodes fs' !! k = Some Dir)
  /\ (is_Some (fs_nodes fs !! k) -> is_Some (fs_nodes fs' !! k))
  /\ (fs_nodes fs' !! k = fs_nodes fs !! k
      \/ exists text, fs_nodes fs' !! k = Some (File text)).
Proof.
  cbv zeta. rewrite process_papers_fs.
  assert (H : forall ws,
            fs_cwd (apply_writes (st_fs st) ws) = fs_cwd (st_fs st)
            /\ (fs_nodes (st_fs st) !! k = Some Dir ->
                fs_nodes (apply_writes (st_fs st) ws) !! k = Some Dir)
            /\ (is_Some (fs_nodes (st_fs st) !! k) ->
                is_Some (fs_nodes (apply_writes (st_fs st) ws) !! k))
            /\ (fs_nodes (apply_writes (st_fs st) ws) !! k
                = fs_nodes (st_fs st) !! k
                \/ exists text,
                     fs_nodes (apply_writes (st_fs st) ws) !! k
                     = Some (File text))).
  { intros ws. split; [apply apply_writes_cwd|].
    rewrite lookup_apply_writes.
    destruct (key_writable (fs_nodes (st_fs st)) k) eqn:Hk; [|auto].
    apply key_writable_not_dir in Hk.
    destruct (last_write (st_fs st) ws k) as [t|]; [|auto].
    split; [congruence|]. split; eauto. }
  unfold export_fs.
  destruct (sync_zotero_collection world); [auto|].
  destruct (get_library_df world) as [e|df]; [auto|].
  destruct dir as [d|]; [|auto].
  destruct (df_empty df); [auto|].
  destruct (truthy d); [apply H | auto].
Qed.

(** ** Further properties: how a run can end *)

Lemma bind_inl {A B : Type} (m : M A) (k : A -> M B) st e st' :
  (m ≫= k) st = (inl e, st') ->
  m st = (inl e, st')
  \/ exists a st1, m st = (inr a, st1) /\ k a st1 = (inl e, st').
Proof.
  unfold mbind, M_bind. destruct (m st) as [[e0|a] st1]; intros H.
  - left. injection H as <- <-. reflexivity.
  - right. exists a, st1. auto.
Qed.

Lemma raises_only_ret {A : Type} P (a : A) : raises_only P (mret a).
Proof. intros st e st' H. discriminate H. Qed.

Lemma raises_only_bind {A B : Type} P (m : M A) (k : A -> M B) :
  raises_only P m -> (forall a, raises_only P (k a)) ->
  raises_only P (m ≫= k).
Proof.
  intros Hm Hk st e st' H.
  apply bind_inl in H as [H|(a & st1 & _ & H)].
  - apply (Hm _ _ _ H).
  - apply (Hk _ _ _ _ H).
Qed.

Lemma raises_only_logger P lvl msg : raises_only P (logger lvl msg).
Proof. intros st e st' H. discriminate H. Qed.

Lemma raises_only_sys_exit {A : Type} (P : exn -> Prop) code :
  P (SystemExit code) -> raises_only P (@sys_exit A code).
Proof. intros HP st e st' [= <- _]. exact HP. Qed.

Lemma raises_only_input (P : exn -> Prop) :
  P KeyboardInterrupt -> P EOFError -> raises_only P input.
Proof.
  intros Hk He st e st'. unfold input.
  destruct (st_stdin st) as [|[s| |] rest]; intros [= <- _]; assumption.
Qed.

Lemma raises_only_lift {A : Type} (P : exn -> Prop) (r : exn + A) :
  (forall e, r = inl e -> P e) -> raises_only P (lift r).
Proof. intros H st e st' [= -> _]. apply H. reflexivity. Qed.

Lemma raises_only_external {A : Type} (P : exn -> Prop) c (r : exn + A) :
  (forall e, r = inl e -> P e) -> raises_only P (external c r).
Proof. intros H st e st' [= -> _]. apply H. reflexivity. Qed.

(** One clause: what the body raises and the clause does not take goes on;
    what the handler raises goes on. *)
Lemma raises_only_try {A : Type} (P Q : exn -> Prop) (body : M A)
    (catches : exn -> bool) (handler : exn -> M A) :
  raises_only Q body ->
  (forall e, Q e -> catches e = false -> P e) ->
  (forall e, raises_only P (handler e)) ->
  raises_only P (try_except body [(catches, handler)]).
Proof.
  intros Hb Hpass Hh st e st'. unfold try_except.
  destruct (body st) as [[e0|a] st1] eqn:E; [|discriminate].
  cbn. destruct (catches e0) eqn:Ec.
  - apply Hh.
  - intros [= <- _]. apply Hpass; [eapply Hb; eauto | exact Ec].
Qed.

Lemma startup_exn_exit : startup_exn (SystemExit 1).
Proof. left. reflexivity. Qed.

Lemma startup_exn_interrupt : startup_exn KeyboardInterrupt.
Proof. right. left. reflexivity. Qed.

Lemma startup_exn_eof : startup_exn EOFError.
Proof. right. right. reflexivity. Qed.

#[local] Hint Resolve raises_only_ret raises_only_bind raises_only_logger
  raises_only_sys_exit raises_only_input startup_exn_exit
  startup_exn_interrupt startup_exn_eof : raises.
#[local] Hint Extern 1 (raises_only _ (if ?b then _ else _)) =>
  destruct b : raises.

Lemma get_interactive_input_raises args :
  raises_only startup_exn (get_interactive_input args).
Proof. unfold get_interactive_input, getpass. auto 30 with raises. Qed.

(** Validation only ever ends the run with exit status 1. *)
Lemma validate_args_raises args :
  raises_only (fun e => e = SystemExit 1) (validate_args args).
Proof.
  intros st e st'. unfold validate_args, try_except, mkdir. run_monad.
  destruct (invalid_library_type (zotero_library_type args));
    [intros [= <- _]; reflexivity|].
  destruct (obsidian_directory args) as [d|]; [|discriminate].
  destruct (truthy d); [|discriminate].
  destruct (path_exists (st_fs st) (Path d)); cbn.
  - destruct (path_is_dir (st_fs st) (Path d)); cbn;
      [discriminate | intros [= <- _]; reflexivity].
  - destruct (mkdir_parents (st_fs st) (Path d)) as [e0|fs'] eqn:Hm; cbn;
      [|discriminate].
    rewrite (mkdir_parents_OSError _ _ _ Hm). intros [= <- _]. reflexivity.
Qed.

Lemma startup_raises args : raises_only startup_exn (startup args).
Proof.
  unfold startup. apply raises_only_bind.
  - destruct (verbose args); intros st e st' H; discriminate H.
  - intros _. apply raises_only_bind.
    + intros st e st' H. apply validate_args_raises in H as ->.
      apply startup_exn_exit.
    + intros _. apply get_interactive_input_raises.
Qed.



Lemma no_exit_exit_one {A : Type} (r : exn + A) e :
  no_exit r -> r = inl e -> exit_one_only e.
Proof. intros H ->. destruct e; cbn in *; auto; contradiction. Qed.

Lemma series_getitem_inl label paper e :
  series_getitem label paper = inl e -> exit_one_only e.
Proof.
  induction paper as [|[l v] rest IH]; cbn.
  - intros [= <-]. exact I.
  - destruct (String.eqb l label); [discriminate | exact IH].
Qed.

Lemma open_and_write_raises p text :
  raises_only exit_one_only (open_and_write p text).
Proof.
  intros st e st'. unfold open_and_write.
  destruct (open_w (st_fs st) p) as [e0|fs'] eqn:Ho; [|discriminate].
  intros [= <- _]. apply open_w_inl in Ho as [_ Ho].
  destruct e0; try discriminate. exact I.
Qed.

Lemma process_paper_raises dir row n :
  (forall v, no_exit (sanitize_filename v)) ->
  raises_only exit_one_only (process_paper dir row n).
Proof.
  intros Hsan. unfold process_paper.
  destruct (has_fulltext (snd row)).
  2:{ apply raises_only_bind; [apply raises_only_logger|].
      intros _. apply raises_only_ret. }
  apply raises_only_bind;
    [apply raises_only_lift; intros e; apply series_getitem_inl|].
  intros fulltext. apply raises_only_bind;
    [apply raises_only_lift; intros e; apply series_getitem_inl|].
  intros title.
  assert (Hsim : raises_only exit_one_only
            (title0 ← lift (series_getitem "title" (snd row));
             logger INFO (would_message title0);;
             mret (n + 1))).
  { apply raises_only_bind;
      [apply raises_only_lift; intros e; apply series_getitem_inl|].
    intros t. apply raises_only_bind; [apply raises_only_logger|].
    intros _. apply raises_only_ret. }
  destruct dir as [d|]; [|exact Hsim].
  destruct (truthy d); [|exact Hsim].
  apply (raises_only_try exit_one_only exit_one_only).
  - apply raises_only_bind;
      [apply raises_only_lift; intros e; apply series_getitem_inl|].
    intros t. apply raises_only_bind.
    { apply raises_only_lift. intros e. apply no_exit_exit_one, Hsan. }
    intros name. apply raises_only_bind; [apply open_and_write_raises|].
    intros _. apply raises_only_bind;
      [apply raises_only_lift; intros e; apply series_getitem_inl|].
    intros t'. apply raises_only_bind; [apply raises_only_logger|].
    intros _. apply raises_only_ret.
  - auto.
  - intros e. apply raises_only_bind;
      [apply raises_only_lift; intros e'; apply series_getitem_inl|].
    intros t. apply raises_only_bind; [apply raises_only_logger|].
    intros _. apply raises_only_ret.
Qed.

Lemma process_rows_raises dir rows n :
  (forall v, no_exit (sanitize_filename v)) ->
  raises_only exit_one_only (process_rows dir rows n).
Proof.
  intros Hsan. revert n. induction rows as [|row rest IH]; intros n.
  - apply raises_only_ret.
  - cbn [process_rows]. apply raises_only_bind.
    + apply process_paper_raises, Hsan.
    + intros m. apply IH.
Qed.

Lemma process_papers_raises world dir :
  world_no_exit world ->
  (forall v, no_exit (sanitize_filename v)) ->
  raises_only exit_one_only (process_papers world dir).
Proof.
  intros (_ & _ & _ & Hsync & Hdf) Hsan. unfold process_papers.
  apply (raises_only_try exit_one_only exit_one_only).
  - apply raises_only_bind.
    { apply raises_only_external. intros e. apply no_exit_exit_one, Hsync. }
    intros result. apply raises_only_bind; [apply raises_only_logger|].
    intros _. apply raises_only_bind.
    { apply raises_only_external. intros e. apply no_exit_exit_one, Hdf. }
    intros df. destruct (df_empty df); [apply raises_only_logger|].
    apply raises_only_bind; [apply raises_only_logger|].
    intros _. apply raises_only_bind; [apply process_rows_raises, Hsan|].
    intros count. apply raises_only_logger.
  - auto.
  - intros e. apply raises_only_bind; [apply raises_only_logger|].
    intros _. apply raises_only_sys_exit. reflexivity.
Qed.

Lemma guarded_body_raises world args :
  world_no_exit world ->
  (forall v, no_exit (sanitize_filename v)) ->
  raises_only exit_one_only (guarded_body world args).
Proof.
  intros Hw Hsan. pose proof Hw as (Hz & Ho & Hp & _).
  unfold guarded_body.
  apply raises_only_bind; [apply raises_only_logger|]. intros _.
  apply raises_only_bind.
  { apply raises_only_external. intros e. apply no_exit_exit_one, Hz. }
  intros _. apply raises_only_bind; [apply raises_only_logger|]. intros _.
  apply raises_only_bind.
  { apply raises_only_external. intros e. apply no_exit_exit_one, Ho. }
  intros _. apply raises_only_bind.
  { apply raises_only_external. intros e. apply no_exit_exit_one, Hp. }
  intros _. apply process_papers_raises; assumption.
Qed.

(** X16: once the command line is parsed, the exit status is 0 or 1.
    From the namespace that [parse_args] returned on (the exit that the
    parser performs itself on a bad command line comes before and is not
    part of [run]), and provided neither a collaborator nor the sanitizer
    raises [SystemExit] itself, a run that ends by returning or through
    [sys.exit] ends with status 0 or with status 1. *)
Theorem X16_exit_status_zero_or_one world args st code :
  world_no_exit world ->
  (forall v, no_exit (sanitize_filename v)) ->
  fst (run world args st) = Exit code ->
  code = 0%Z \/ code = 1%Z.
Proof.
  intros Hw Hsan. unfold run. rewrite main_startup. cbn [fst].
  pose proof (startup_raises args st) as Hraise.
  destruct (startup args st) as [[e0|args'] st'] eqn:Hs.
  - destruct (Hraise e0 st' eq_refl) as [->|[->| ->]]; cbn;
      [intros [= <-]; auto | discriminate | discriminate].
  - change (guarded world args' st')
      with (try_except (guarded_body world args')
              [(is_KeyboardInterrupt, fun _ =>
                  logger INFO "Operation cancelled by user";; sys_exit 0);
               (is_Exception, fun e =>
                  logger ERROR ("Unexpected error: " +:+ exn_str e);;
                  (if verbose args' then print_exc e else mret tt);;
                  sys_exit 1)] st').
    unfold try_except.
    pose proof (guarded_body_raises world args' Hw Hsan st') as Hbody.
    destruct (guarded_body world args' st') as [[e|[]] st1];
      [|cbn; intros [= <-]; auto].
    specialize (Hbody e st1 eq_refl).
    destruct e; cbn in *; try destruct (verbose args'); cbn;
      intros [= <-]; auto.
Qed.

(** X17: when one of the three collaborators cannot be set up (an
    [Exception] from its constructor or its [init]), the handler of [main]
    logs "Unexpected error" with the message, prints the stack trace only
    under [--verbose], and the process exits with status 1; neither the
    synchronization nor the export has started. *)
Theorem X17_client_setup_failure world args st args' st' e :
  startup args st = (inr args', st') ->
  is_Exception e = true ->
  client_setup_raises world args' e ->
  let r := run world args st in
  fst r = Exit 1
  /\ st_fs (snd r) = st_fs st'
  /\ sync_calls (snd r) = sync_calls st'
  /\ List.filter is_error (st_log (snd r))
     = List.filter is_error (st_log st')
       ++ [Log ERROR ("Unexpected error: " +:+ exn_str e)]
  /\ last (st_log (snd r))
     = Some (if verbose args' then Traceback e
             else Log ERROR ("Unexpected error: " +:+ exn_str e)).
Proof.
  intros Hs He Hc. cbv zeta. unfold run. rewrite main_startup, Hs.
  assert (Hki : is_KeyboardInterrupt e = false)
    by (destruct e; try reflexivity; discriminate).
  unfold guarded, try_except. run_monad.
  destruct Hc as [Hz|(Hz & [Ho|(Ho & Hp)])]; rewrite Hz; cbn;
    [|rewrite Ho; cbn|rewrite Ho; cbn; rewrite Hp; cbn];
    rewrite Hki, He; unfold sync_calls;
    destruct (verbose args'); cbn;
    rewrite ?List.filter_app, ?length_app; cbn;
    rewrite ?app_nil_r, ?last_snoc, <- ?app_assoc; cbn;
    repeat split; try reflexivity; try lia.
Qed.

(** X18: an interrupt during the synchronization or the retrieval of the
    table is a cancellation.  [process_papers] does not catch it (it logs
    no error), the handler of [main] logs "Operation cancelled by user",
    and the process exits with status 0, the file system untouched. *)
Theorem X18_interrupt_during_sync world args st args' st' :
  startup args st = (inr args', st') ->
  clients_ok world args' ->
  retrieval_raises world KeyboardInterrupt ->
  let r := run world args st in
  fst r = Exit 0
  /\ last (st_log (snd r)) = Some (Log INFO "Operation cancelled by user")
  /\ List.filter is_error (st_log (snd r))
     = List.filter is_error (st_log st')
  /\ st_fs (snd r) = st_fs st'.
Proof.
  intros Hs (Hz & Ho & Hp) Hr. cbv zeta. unfold run.
  rewrite main_startup, Hs.
  unfold guarded, process_papers, try_except. run_monad.
  rewrite Hz, Ho, Hp. cbn.
  destruct Hr as [Hsync|(msg & Hsync & Hdf)]; rewrite Hsync; cbn;
    [|rewrite Hdf; cbn];
    rewrite ?List.filter_app, ?last_snoc; cbn;
    rewrite ?app_nil_r; repeat split; reflexivity.
Qed.

(** ** Further properties: what the log cannot influence *)

Lemma same_effects_refl st : same_effects st st.
Proof. repeat split. Qed.

Lemma same_effects_add_log o st1 st2 :
  same_effects st1 st2 -> same_effects (add_log o st1) st2.
Proof. intros H. exact H. Qed.

Lemma blind_ret {A : Type} (a : A) : log_blind (mret a).
Proof. intros st1 st2 H. split; [reflexivity | exact H]. Qed.

Lemma blind_bind {A B : Type} (m : M A) (k : A -> M B) :
  log_blind m -> (forall a, log_blind (k a)) -> log_blind (m ≫= k).
Proof.
  intros Hm Hk st1 st2 H. unfold mbind, M_bind.
  destruct (Hm st1 st2 H) as [Hr Hs].
  destruct (m st1) as [[e1|a1] s1], (m st2) as [[e2|a2] s2]; cbn in *;
    try discriminate.
  - injection Hr as <-. auto.
  - injection Hr as <-. apply Hk, Hs.
Qed.

Lemma blind_logger lvl msg : log_blind (logger lvl msg).
Proof. intros st1 st2 H. split; [reflexivity | exact H]. Qed.

Lemma blind_print_exc e : log_blind (print_exc e).
Proof. intros st1 st2 H. split; [reflexivity | exact H]. Qed.

Lemma blind_logger_add : log_blind logger_add.
Proof. intros st1 st2 H. split; [reflexivity | exact H]. Qed.

Lemma blind_sys_exit {A : Type} code : log_blind (@sys_exit A code).
Proof. intros st1 st2 H. split; [reflexivity | exact H]. Qed.

Lemma blind_lift {A : Type} (r : exn + A) : log_blind (lift r).
Proof. intros st1 st2 H. split; [reflexivity | exact H]. Qed.

Lemma blind_external {A : Type} c (r : exn + A) : log_blind (external c r).
Proof.
  intros st1 st2 (Hfs & Hin & Hc). split; [reflexivity|].
  repeat split; cbn; congruence.
Qed.

Lemma blind_input : log_blind input.
Proof.
  intros st1 st2 (Hfs & Hin & Hc). unfold input. rewrite Hin.
  destruct (st_stdin st2) as [|[s| |] rest] eqn:E; cbn;
    (split; [reflexivity|]); repeat split; cbn; congruence.
Qed.

Lemma blind_get_fs_bind {B : Type} (k : FS -> M B) :
  (forall fs, log_blind (k fs)) -> log_blind (get_fs ≫= k).
Proof.
  intros Hk st1 st2 H. unfold mbind, M_bind, get_fs.
  destruct H as (Hfs & Hin & Hc). rewrite Hfs. apply Hk. repeat split; auto.
Qed.

Lemma blind_mkdir p : log_blind (mkdir p).
Proof.
  intros st1 st2 (Hfs & Hin & Hc). unfold mkdir. rewrite Hfs.
  destruct (mkdir_parents (st_fs st2) p); cbn; repeat split; auto.
Qed.

Lemma blind_open_and_write p text : log_blind (open_and_write p text).
Proof.
  intros st1 st2 (Hfs & Hin & Hc). unfold open_and_write. rewrite Hfs.
  destruct (open_w (st_fs st2) p); cbn; repeat split; auto.
Qed.

Lemma blind_try_except {A : Type} (body : M A) clauses :
  log_blind body ->
  (forall e handler, select_clause clauses e = Some handler ->
                     log_blind (handler e)) ->
  log_blind (try_except body clauses).
Proof.
  intros Hb Hh st1 st2 H. unfold try_except.
  destruct (Hb st1 st2 H) as [Hr Hs].
  destruct (body st1) as [[e1|a1] s1], (body st2) as [[e2|a2] s2]; cbn in *;
    try discriminate.
  - injection Hr as <-.
    destruct (select_clause clauses e1) as [handler|] eqn:E; [|auto].
    apply (Hh _ _ E), Hs.
  - injection Hr as <-. auto.
Qed.

#[local] Hint Resolve blind_ret blind_bind blind_logger blind_print_exc
  blind_logger_add blind_sys_exit blind_lift blind_external blind_input
  blind_mkdir blind_open_and_write blind_get_fs_bind : blind.
#[local] Hint Extern 1 (log_blind (if ?b then _ else _)) =>
  destruct b : blind.
#[local] Hint Extern 1 (log_blind (match ?o with Some _ => _ | None => _ end))
  => destruct o : blind.

Lemma blind_validate_args args : log_blind (validate_args args).
Proof.
  unfold validate_args. apply blind_bind; [auto with blind|]. intros _.
  destruct (obsidian_directory args) as [d|]; [|apply blind_ret].
  destruct (truthy d); [|apply blind_ret].
  apply blind_get_fs_bind. intros fs.
  destruct (negb (path_exists fs (Path d))).
  - apply blind_try_except; [auto with blind|].
    intros e handler. cbn. destruct (is_OSError e); [|discriminate].
    intros [= <-]. auto with blind.
  - auto with blind.
Qed.

Lemma blind_get_interactive_input args :
  log_blind (get_interactive_input args).
Proof. unfold get_interactive_input, getpass. auto 30 with blind. Qed.

Lemma blind_process_paper dir row n : log_blind (process_paper dir row n).
Proof.
  unfold process_paper. destruct (has_fulltext (snd row));
    [|auto with blind].
  apply blind_bind; [apply blind_lift|]. intros fulltext.
  apply blind_bind; [apply blind_lift|]. intros title.
  destruct dir as [d|]; [|auto 10 with blind].
  destruct (truthy d); [|auto 10 with blind].
  apply blind_try_except; [auto 20 with blind|].
  intros e handler. cbn. destruct (is_OSError e); [|discriminate].
  intros [= <-]. auto 10 with blind.
Qed.

Lemma blind_process_rows dir rows n : log_blind (process_rows dir rows n).
Proof.
  revert n. induction rows as [|row rest IH]; intros n.
  - apply blind_ret.
  - cbn [process_rows]. apply blind_bind; [apply blind_process_paper|].
    intros m. apply IH.
Qed.

Lemma blind_process_papers world dir : log_blind (process_papers world dir).
Proof.
  unfold process_papers. apply blind_try_except.
  - apply blind_bind; [apply blind_external|]. intros result.
    apply blind_bind; [apply blind_logger|]. intros _.
    apply blind_bind; [apply blind_external|]. intros df.
    destruct (df_empty df); [apply blind_logger|].
    apply blind_bind; [apply blind_logger|]. intros _.
    apply blind_bind; [apply blind_process_rows|]. intros count.
    apply blind_logger.
  - intros e handler. cbn. destruct (is_Exception e); [|discriminate].
    intros [= <-]. auto with blind.
Qed.

Lemma blind_guarded_body world args : log_blind (guarded_body world args).
Proof.
  unfold guarded_body.
  repeat (apply blind_bind;
          [first [apply blind_logger | apply blind_external]|intros _]).
  apply blind_process_papers.
Qed.

(** The [try] block of [main] under two values of the verbosity flag. *)
Lemma guarded_verbose world args b1 b2 st1 st2 :
  same_effects st1 st2 ->
  fst (guarded world (set_verbose b1 args) st1)
  = fst (guarded world (set_verbose b2 args) st2)
  /\ same_effects (snd (guarded world (set_verbose b1 args) st1))
       (snd (guarded world (set_verbose b2 args) st2)).
Proof.
  intros H.
  assert (Hg : forall b s,
            guarded world (set_verbose b args) s
            = try_except (guarded_body world args)
                [(is_KeyboardInterrupt, fun _ =>
                    logger INFO "Operation cancelled by user";; sys_exit 0);
                 (is_Exception, fun e =>
                    logger ERROR ("Unexpected error: " +:+ exn_str e);;
                    (if b then print_exc e else mret tt);;
                    sys_exit 1)] s) by reflexivity.
  rewrite !Hg. unfold try_except.
  destruct (blind_guarded_body world args st1 st2 H) as [Hr Hs].
  destruct (guarded_body world args st1) as [[e1|[]] s1],
           (guarded_body world args st2) as [[e2|[]] s2]; cbn in *;
    try discriminate; [|auto].
  injection Hr as <-.
  destruct (is_KeyboardInterrupt e1); [cbn; auto|].
  destruct (is_Exception e1); [|cbn; auto].
  destruct b1, b2; cbn; auto.
Qed.

Lemma get_interactive_input_verbose b args st :
  get_interactive_input (set_verbose b args) st
  = match get_interactive_input args st with
    | (inr args', st') => (inr (set_verbose b args'), st')
    | (inl e, st') => (inl e, st')
    end.
Proof.
  unfold get_interactive_input, set_verbose. run_monad.
  cbn [zotero_api_key zotero_library_id zotero_collection_key
       zotero_library_type obsidian_directory dry_run verbose].
  repeat match goal with
         | |- context [match ?f ?s with (_, _) => _ end] =>
             destruct (f s) as [[?|?] ?]
         end; reflexivity.
Qed.

(** X19: [--verbose] only changes what is output.  With the flag and
    without it, from the same initial state, a run ends in the same way,
    with the same file system, the same input consumed and the same calls
    to the collaborators. *)
Theorem X19_verbose_only_changes_output world args st :
  let r1 := run world (set_verbose true args) st in
  let r2 := run world (set_verbose false args) st in
  fst r1 = fst r2 /\ same_effects (snd r1) (snd r2).
Proof.
  cbv zeta. unfold run. rewrite !main_startup. cbn [fst snd].
  assert (Hst : forall b s,
            startup (set_verbose b args) s
            = match validate_args args (if b then add_sink s else s) with
              | (inr _, s1) =>
                  match get_interactive_input args s1 with
                  | (inr args', s2) => (inr (set_verbose b args'), s2)
                  | (inl e, s2) => (inl e, s2)
                  end
              | (inl e, s1) => (inl e, s1)
              end).
  { intros b s. unfold startup. run_monad. cbn [verbose set_verbose].
    change (validate_args (set_verbose b args)) with (validate_args args).
    destruct b;
      (destruct (validate_args args _) as [[e|[]] s1]; [reflexivity|];
       rewrite get_interactive_input_verbose; reflexivity). }
  rewrite !Hst.
  assert (H0 : same_effects (add_sink st) st) by (repeat split).
  destruct (blind_validate_args args _ _ H0) as [Hr Hs].
  destruct (validate_args args (add_sink st)) as [[e1|[]] s1],
           (validate_args args st) as [[e2|[]] s2]; cbn in Hr, Hs;
    try discriminate.
  { injection Hr as <-. auto. }
  destruct (blind_get_interactive_input args _ _ Hs) as [Hr' Hs'].
  destruct (get_interactive_input args s1) as [[e1|a1] t1],
           (get_interactive_input args s2) as [[e2|a2] t2]; cbn in Hr', Hs';
    try discriminate.
  { injection Hr' as <-. auto. }
  injection Hr' as <-.
  destruct (guarded_verbose world a1 true false t1 t2 Hs') as [Hg1 Hg2].
  destruct (guarded world (set_verbose true a1) t1) as [r1 u1],
           (guarded world (set_verbose false a1) t2) as [r2 u2].
  cbn in *. subst r2. auto.
Qed.

End Script.

(** ** The scenarios of the specification, run on the sample data *)

Module Scenarios.
Import Demo.

(** Two records, the second with an empty full text, exported to [/tmp/out]:
    one file, one record processed, one warning. *)
Example scenario_two_papers :
  let r := run demo_sanitize (demo_world (inr "synced") (inr demo_df))
             (demo_args (Some "key") (Some "/tmp/out") "user" false)
             (demo_state []) in
  fst r = Exit 0
  /\ read_file (st_fs (snd r)) (Path "/tmp/out/Paper A.md")
     = Some ("# Paper A" +:+ nl +:+ nl +:+ "Body A")
  /\ read_file (st_fs (snd r)) (Path "/tmp/out/Paper B.md") = None
  /\ size (fs_nodes (st_fs (snd r))) = S (size (fs_nodes demo_fs))
  /\ last (st_log (snd r)) = Some (Log INFO "Successfully processed 1 papers")
  /\ List.filter (fun o => match o with Log WARNING _ => true | _ => false end)
       (st_log (snd r))
     = [Log WARNING "No fulltext found for paper 'Paper B'"].
Proof. vm_compute. repeat split; reflexivity. Qed.

(** An empty result table: a warning, no file, a normal return. *)
Example scenario_empty_table :
  let r := run demo_sanitize
             (demo_world (inr "synced")
                (inr {| df_columns := ["title"; "fulltext"]; df_rows := [] |}))
             (demo_args (Some "key") (Some "/tmp/out") "user" false)
             (demo_state []) in
  fst r = Exit 0
  /\ st_fs (snd r) = demo_fs
  /\ last (st_log (snd r))
     = Some (Log WARNING "No papers found in the library.").
Proof. vm_compute. repeat split; reflexivity. Qed.

(** The output directory is the regular file [/tmp/notes]: exit status 1
    before any collaborator is called. *)
Example scenario_directory_is_a_file :
  let r := run demo_sanitize (demo_world (inr "synced") (inr demo_df))
             (demo_args (Some "key") (Some "/tmp/notes") "user" false)
             (demo_state []) in
  fst r = Exit 1 /\ st_calls (snd r) = [] /\ st_fs (snd r) = demo_fs.
Proof. vm_compute. repeat split; reflexivity. Qed.

End Scenarios.

(** ** The properties on the sample data *)

Module Witness.
Import Demo.

Lemma C1_witness :
  let r := process_paper demo_sanitize (Some "/tmp/out") paper_a 0
             (demo_state []) in
  fst r = inr (0 + 1)
  /\ read_file (st_fs (snd r)) (file_path "/tmp/out" "Paper A")
     = Some ("# " +:+ "Paper A" +:+ nl +:+ nl +:+ "Body A").
Proof.
  apply (C1_written_file_content demo_sanitize "/tmp/out" paper_a 0
           (demo_state []) "Paper A" "Body A" "Paper A");
    vm_compute; reflexivity.
Defined.

Lemma C2_witness :
  (forall m st',
     process_paper demo_sanitize (Some "/tmp/out") paper_b m st'
     = (inr m, add_log (Log WARNING (skip_message paper_b)) st'))
  /\ process_rows demo_sanitize (Some "/tmp/out")
       ([paper_a] ++ paper_b :: []) 0 (demo_state [])
     = match process_rows demo_sanitize (Some "/tmp/out") [paper_a] 0
               (demo_state []) with
       | (inr m, st') =>
           process_rows demo_sanitize (Some "/tmp/out") [] m
             (add_log (Log WARNING (skip_message paper_b)) st')
       | (inl e, st') => (inl e, st')
       end.
Proof.
  apply (C2_no_fulltext_no_file demo_sanitize (Some "/tmp/out") [paper_a]
           paper_b [] 0 (demo_state [])).
  intros (s & Hs & Hn). vm_compute in Hs. injection Hs as <-.
  discriminate Hn.
Defined.

Lemma C5_witness :
  let r := run demo_sanitize (demo_world (inr "synced") (inr demo_df))
             (demo_args (Some "key") (Some "/tmp/out") "shared" false)
             (demo_state []) in
  fst r = Exit 1
  /\ st_calls (snd r) = []
  /\ st_fs (snd r) = demo_fs
  /\ st_log (snd r)
     = [] ++ [Log ERROR ("Invalid library type: " +:+ "shared"
                         +:+ ". Must be 'user' or 'group'.")].
Proof.
  apply (C5_invalid_library_type demo_sanitize
           (demo_world (inr "synced") (inr demo_df))
           (demo_args (Some "key") (Some "/tmp/out") "shared" false)
           (demo_state [])); discriminate.
Defined.

Lemma C6_witness :
  process_rows demo_sanitize (Some "/tmp/vault") ([] ++ paper_a :: [paper_b])
    0 (demo_state [])
  = process_rows demo_sanitize (Some "/tmp/vault") [paper_b] 0
      (add_log (Log ERROR (failed_message (VStr "Paper A") ENOENT))
         (demo_state [])).
Proof.
  apply (C6_write_failure_continues demo_sanitize "/tmp/vault" [] paper_a
           [paper_b] 0 (demo_state []) 0 (demo_state []) (VStr "Paper A")
           "Paper A" ENOENT);
    vm_compute; reflexivity.
Defined.


Lemma C8_witness :
  let world := demo_world (inr "synced") (inr demo_df) in
  let created := demo_args (Some "key") (Some "/tmp/vault/notes") "user" false in
  let blocked := demo_args (Some "key") (Some "/tmp/notes/sub") "user" false in
  let is_file := demo_args (Some "key") (Some "/tmp/notes") "user" false in
  (exists fs',
     mkdir_parents demo_fs (Path "/tmp/vault/notes") = inr fs'
     /\ validate_args created (demo_state [])
        = (inr tt, add_log (Log INFO ("Created directory: "
                                      +:+ "/tmp/vault/notes"))
                     (set_fs fs' (demo_state [])))
     /\ path_is_dir fs' (Path "/tmp/vault/notes") = true
     /\ path_is_dir fs' (Path "/tmp/vault") = true)
  /\ (fst (run demo_sanitize world blocked (demo_state [])) = Exit 1
      /\ st_calls (snd (run demo_sanitize world blocked (demo_state []))) = [])
  /\ (fst (run demo_sanitize world is_file (demo_state [])) = Exit 1
      /\ st_calls (snd (run demo_sanitize world is_file (demo_state []))) = []).
Proof.
  cbv zeta. split; [|split].
  - destruct (mkdir_parents demo_fs (Path "/tmp/vault/notes")) as [e|fs']
      eqn:Hm; [vm_compute in Hm; discriminate|].
    exists fs'. split; [reflexivity|].
    destruct (C8_output_directory_validated demo_sanitize
                (demo_world (inr "synced") (inr demo_df))
                (demo_args (Some "key") (Some "/tmp/vault/notes") "user" false)
                (demo_state []) "/tmp/vault/notes" eq_refl eq_refl)
      as [Hcreate _].
    destruct (Hcreate eq_refl eq_refl fs' Hm) as [Hv Hd].
    split; [exact Hv|]. split; [exact Hd|].
    vm_compute in Hm. injection Hm as <-. vm_compute. reflexivity.
  - destruct (C8_output_directory_validated demo_sanitize
                (demo_world (inr "synced") (inr demo_df))
                (demo_args (Some "key") (Some "/tmp/notes/sub") "user" false)
                (demo_state []) "/tmp/notes/sub" eq_refl eq_refl)
      as (_ & Hfail & _).
    apply (Hfail eq_refl ENOTDIR). vm_compute. reflexivity.
  - destruct (C8_output_directory_validated demo_sanitize
                (demo_world (inr "synced") (inr demo_df))
                (demo_args (Some "key") (Some "/tmp/notes") "user" false)
                (demo_state []) "/tmp/notes" eq_refl eq_refl)
      as (_ & _ & Hfile).
    apply Hfile; vm_compute; reflexivity.
Defined.

Lemma C10_witness :
  let args := demo_args (Some "key") None "user" false in
  let args' := demo_args (Some "key") (Some "/tmp/vault") "user" false in
  startup args (demo_state [Line " /tmp/vault "])
  = (inr args', demo_state [])
  /\ (forall s, validate_args args s = (inr tt, s))
  /\ st_fs (demo_state []) = st_fs (demo_state [Line " /tmp/vault "])
  /\ truthy "/tmp/vault" = true
  /\ (exists e,
        is_OSError e = true
        /\ process_paper demo_sanitize (Some "/tmp/vault") paper_a 0
             (demo_state [])
           = (inr 0, add_log (Log ERROR (failed_message (VStr "Paper A") e))
                       (demo_state [])))
  /\ st_fs (snd (process_rows demo_sanitize (Some "/tmp/vault")
                   [paper_a; paper_b] 0 (demo_state [])))
     = st_fs (demo_state []).
Proof.
  cbv zeta.
  assert (Hs : startup (demo_args (Some "key") None "user" false)
                 (demo_state [Line " /tmp/vault "])
               = (inr (demo_args (Some "key") (Some "/tmp/vault") "user" false),
                  demo_state []))
    by (vm_compute; reflexivity).
  destruct (C10_prompted_directory_not_validated demo_sanitize
              (demo_args (Some "key") None "user" false)
              (demo_state [Line " /tmp/vault "])
              (demo_args (Some "key") (Some "/tmp/vault") "user" false)
              (demo_state []) "/tmp/vault" eq_refl Hs eq_refl)
    as (Hv & Hfs & Ht & Hmissing).
  destruct (Hmissing ltac:(vm_compute; reflexivity)) as [Hrecord Hloop].
  split; [exact Hs|]. split; [exact Hv|]. split; [exact Hfs|].
  split; [exact Ht|]. split.
  - apply (Hrecord paper_a 0 (demo_state []) (VStr "Paper A") "Paper A");
      reflexivity.
  - apply Hloop; [|reflexivity].
    intros [s| |] name H; try discriminate. injection H as <-.
    clear. induction s as [|c s IH]; [reflexivity|].
    cbn. destruct (Ascii.eqb c "/") eqn:E; [exact IH|].
    cbn. rewrite E. exact IH.
Defined.


(** C4 as it is stated fails: a dry run with a supplied output directory
    that does not exist creates that directory. *)
Lemma C4_dry_run_creates_directory :
  let world := demo_world (inr "synced") (inr demo_df) in
  let args := demo_args (Some "key") (Some "/tmp/vault") "user" true in
  let st := demo_state [] in
  dry_run args = true
  /\ path_exists (st_fs st) (Path "/tmp/vault") = false
  /\ path_is_dir (st_fs (snd (main demo_sanitize world args st)))
       (Path "/tmp/vault") = true
  /\ st_fs (snd (main demo_sanitize world args st)) <> st_fs st.
Proof.
  cbv zeta. split; [reflexivity|]. split; [reflexivity|].
  split; [vm_compute; reflexivity|].
  intros H.
  apply (f_equal (fun fs => fs_nodes fs !! ["tmp"; "vault"])) in H.
  vm_compute in H. discriminate H.
Qed.

(** C3 on the code: an interrupt at the prompt for the API key ends the
    process on an uncaught [KeyboardInterrupt], not with status 0, whereas
    an interrupt raised inside the [try] block of [main] gives status 0. *)
Theorem C3_interrupt_at_prompt_uncaught :
  let world := demo_world (inr "synced") (inr demo_df) in
  let interrupted := demo_world (inl KeyboardInterrupt) (inr demo_df) in
  fst (run demo_sanitize world
         (demo_args None (Some "/tmp/out") "user" false)
         (demo_state [CtrlC]))
  = Uncaught KeyboardInterrupt
  /\ fst (run demo_sanitize interrupted
            (demo_args (Some "key") (Some "/tmp/out") "user" false)
            (demo_state []))
     = Exit 0.
Proof. vm_compute. split; reflexivity. Qed.

End Witness.

(** ** The further properties on the sample data *)

Module Instances.
Import Demo Samples.

Lemma X1_witness :
  get_interactive_input
    (demo_args (Some "key") (Some "/tmp/out") "user" false)
    (demo_state [Line "never read"])
  = (inr (demo_args (Some "key") (Some "/tmp/out") "user" false),
     demo_state [Line "never read"]).
Proof.
  apply (X1_no_prompt_when_supplied
           (demo_args (Some "key") (Some "/tmp/out") "user" false)
           (demo_state [Line "never read"])); reflexivity.
Defined.

Lemma X2_witness :
  get_interactive_input (demo_args None (Some "/tmp/out") "user" false)
    (demo_state [Line "   "; Line "next"])
  = (inl (SystemExit 1),
     add_log (Log ERROR "Zotero API key is required")
       (set_stdin [Line "next"] (demo_state [Line "   "; Line "next"])))
  /\ get_interactive_input (demo_args (Some "key") None "user" false)
       (demo_state [Line "   "; Line "next"])
     = (inr (demo_args (Some "key") None "user" false),
        set_stdin [Line "next"] (demo_state [Line "   "; Line "next"])).
Proof.
  split.
  - apply (X2_blank_answer (demo_args None (Some "/tmp/out") "user" false)
             (demo_state [Line "   "; Line "next"]) "   " [Line "next"]
             eq_refl eq_refl).
    reflexivity.
  - apply (X2_blank_answer (demo_args (Some "key") None "user" false)
             (demo_state [Line "   "; Line "next"]) "   " [Line "next"]
             eq_refl eq_refl); reflexivity.
Defined.

Lemma X3_witness :
  get_interactive_input nothing_supplied
    (demo_state [Line " secret "; Line " 4711 "; Line "ABCD1234 ";
                 Line " /tmp/out"; Line "left"])
  = (inr {| zotero_api_key := Some " secret ";
            zotero_library_id := Some "4711";
            zotero_collection_key := Some "ABCD1234";
            zotero_library_type := "user";
            obsidian_directory := Some "/tmp/out";
            dry_run := false;
            verbose := false |},
     demo_state [Line "left"]).
Proof.
  apply (X3_prompt_order_and_trimming nothing_supplied
           (demo_state [Line " secret "; Line " 4711 "; Line "ABCD1234 ";
                        Line " /tmp/out"; Line "left"])
           " secret " " 4711 " "ABCD1234 " " /tmp/out" [Line "left"]);
    reflexivity.
Defined.

Lemma X4_witness :
  let r := run demo_sanitize (demo_world (inr "synced") (inr demo_df))
             (demo_args None (Some "/tmp/out") "user" false)
             (demo_state []) in
  fst r = Uncaught EOFError /\ st_log (snd r) = [] /\ st_calls (snd r) = [].
Proof.
  apply (X4_end_of_input_at_prompt demo_sanitize
           (demo_world (inr "synced") (inr demo_df))
           (demo_args None (Some "/tmp/out") "user" false)
           (demo_state []) (demo_state []));
    [vm_compute; reflexivity | reflexivity | left; reflexivity].
Defined.

Lemma X5_witness :
  let args := demo_args (Some "key") (Some "/tmp/vault/notes") "user" false in
  let st' := snd (validate_args args (demo_state [])) in
  path_exists demo_fs (Path "/tmp/vault/notes") = false
  /\ path_is_dir (st_fs st') (Path "/tmp/vault/notes") = true
  /\ validate_args args st' = (inr tt, st').
Proof.
  cbv zeta. split; [reflexivity|]. split; [vm_compute; reflexivity|].
  apply (X5_validate_args_idempotent
           (demo_args (Some "key") (Some "/tmp/vault/notes") "user" false)
           (demo_state [])).
  vm_compute. reflexivity.
Defined.

Lemma X7_witness :
  let args := demo_args (Some "key") (Some "/tmp/vault/notes") "user" false in
  let st' := snd (validate_args args (demo_state [])) in
  path_exists demo_fs (Path "/tmp/vault/notes") = false
  /\ path_exists (st_fs st') (Path "/tmp/vault/notes") = true
  /\ path_is_dir (st_fs st') (Path "/tmp/vault/notes") = true.
Proof.
  cbv zeta. split; [reflexivity|].
  apply (X7_validated_directory_is_directory
           (demo_args (Some "key") (Some "/tmp/vault/notes") "user" false)
           (demo_state [])
           (snd (validate_args
                   (demo_args (Some "key") (Some "/tmp/vault/notes") "user"
                      false)
                   (demo_state [])))
           "/tmp/vault/notes");
    [vm_compute; reflexivity | reflexivity | reflexivity].
Defined.

Lemma X8_witness :
  let df := {| df_columns := []; df_rows := [(0%Z, [])] |} in
  process_papers demo_sanitize (demo_world (inr "synced") (inr df))
    (Some "/tmp/out") (demo_state [])
  = (inr tt,
     add_log (Log WARNING "No papers found in the library.")
       (add_call CallGetLibraryDf
          (add_log (Log INFO "synced") (add_call CallSync (demo_state []))))).
Proof.
  apply (X8_empty_table demo_sanitize
           (demo_world (inr "synced")
              (inr {| df_columns := []; df_rows := [(0%Z, [])] |}))
           (Some "/tmp/out") (demo_state []) "synced"
           {| df_columns := []; df_rows := [(0%Z, [])] |});
    [reflexivity | reflexivity | right; reflexivity].
Defined.

Lemma X9_witness :
  let df := {| df_columns := ["fulltext"];
               df_rows := [(0%Z, [VStr "Body"])] |} in
  process_papers demo_sanitize (demo_world (inr "synced") (inr df))
    (Some "/tmp/out") (demo_state [])
  = (inl (SystemExit 1),
     add_log (Log ERROR "Error processing papers: 'title'")
       (add_log (Log INFO ("Found " +:+ pretty (df_len df)
                           +:+ " papers in the library."))
          (add_call CallGetLibraryDf
             (add_log (Log INFO "synced")
                (add_call CallSync (demo_state [])))))).
Proof.
  apply (X9_missing_title_aborts demo_sanitize
           (demo_world (inr "synced")
              (inr {| df_columns := ["fulltext"];
                      df_rows := [(0%Z, [VStr "Body"])] |}))
           (Some "/tmp/out") (demo_state []) "synced"
           {| df_columns := ["fulltext"]; df_rows := [(0%Z, [VStr "Body"])] |}
           [] untitled [] 0); reflexivity.
Defined.

Lemma X10_witness :
  process_rows demo_sanitize (Some "/tmp/out") ([] ++ nan_title :: [paper_a])
    0 (demo_state [])
  = (inl (OtherException "text must be a string"), demo_state [])
  /\ process_rows failing_sanitize (Some "/tmp/out")
       ([] ++ paper_a :: [paper_b]) 0 (demo_state [])
     = process_rows failing_sanitize (Some "/tmp/out") [paper_b] 0
         (add_log (Log ERROR (failed_message (VStr "Paper A")
                                (OSError 36 "File name too long")))
            (demo_state [])).
Proof.
  split.
  - apply (X10_sanitize_raises demo_sanitize "/tmp/out" [] nan_title
             [paper_a] 0 (demo_state []) 0 (demo_state []) VNaN
             (OtherException "text must be a string")); reflexivity.
  - apply (X10_sanitize_raises failing_sanitize "/tmp/out" [] paper_a
             [paper_b] 0 (demo_state []) 0 (demo_state []) (VStr "Paper A")
             (OSError 36 "File name too long")); reflexivity.
Defined.

Lemma X11_witness :
  fst (process_rows demo_sanitize None [paper_a; paper_b; paper_a_again] 0
         (demo_state []))
  = inr (0 + 2)
  /\ st_fs (snd (process_rows demo_sanitize None
                   [paper_a; paper_b; paper_a_again] 0 (demo_state [])))
     = demo_fs.
Proof.
  apply (X11_simulated_count demo_sanitize None
           [paper_a; paper_b; paper_a_again] 0 (demo_state []));
    [reflexivity|].
  intros row [<-|[<-|[<-|[]]]] _; reflexivity.
Defined.

Lemma X12_witness :
  let r := process_rows demo_sanitize (Some "/tmp/out") [paper_a; paper_b] 0
             (demo_state []) in
  fst r = inr 1
  /\ length (st_log (snd r)) = 0 + 2
  /\ 1 + info_entries [] = 0 + info_entries (st_log (snd r))
  /\ 0 <= 1 <= 0 + qualifying [paper_a; paper_b].
Proof.
  cbv zeta. split; [vm_compute; reflexivity|].
  apply (X12_loop_accounting demo_sanitize (Some "/tmp/out")
           [paper_a; paper_b] 0 (demo_state []) 1
           (snd (process_rows demo_sanitize (Some "/tmp/out")
                   [paper_a; paper_b] 0 (demo_state [])))).
  vm_compute. reflexivity.
Defined.

Lemma X13_witness :
  let r := process_rows demo_sanitize (Some "/tmp/out")
             [paper_a; paper_a_again] 0 (demo_state []) in
  fst r = inr (0 + 1 + 1)
  /\ read_file (st_fs (snd r)) (file_path "/tmp/out" "Paper A")
     = Some (markdown_text (VStr "Paper /A") "Second body").
Proof.
  apply (X13_same_name_overwrites demo_sanitize "/tmp/out" paper_a
           paper_a_again 0 (demo_state []) "Body A" "Second body"
           (VStr "Paper A") (VStr "Paper /A") "Paper A");
    vm_compute; reflexivity.
Defined.


Lemma X16_witness :
  fst (run demo_sanitize (demo_world (inr "synced") (inr demo_df))
         (demo_args (Some "key") (Some "/tmp/notes") "user" false)
         (demo_state []))
  = Exit 1
  /\ (1 = 0 \/ 1 = 1)%Z.
Proof.
  split; [vm_compute; reflexivity|].
  apply (X16_exit_status_zero_or_one demo_sanitize
           (demo_world (inr "synced") (inr demo_df))
           (demo_args (Some "key") (Some "/tmp/notes") "user" false)
           (demo_state []) 1%Z).
  - repeat split.
  - intros [s| |]; exact I.
  - vm_compute. reflexivity.
Defined.

Lemma X17_witness :
  let args := demo_args (Some "key") (Some "/tmp/out") "user" false in
  let r := run demo_sanitize no_zotero args (demo_state []) in
  fst r = Exit 1
  /\ st_fs (snd r) = demo_fs
  /\ sync_calls (snd r) = 0
  /\ List.filter is_error (st_log (snd r))
     = [] ++ [Log ERROR ("Unexpected error: " +:+ "Invalid API key")]
  /\ last (st_log (snd r))
     = Some (Log ERROR ("Unexpected error: " +:+ "Invalid API key")).
Proof.
  apply (X17_client_setup_failure demo_sanitize no_zotero
           (demo_args (Some "key") (Some "/tmp/out") "user" false)
           (demo_state [])
           (demo_args (Some "key") (Some "/tmp/out") "user" false)
           (demo_state []) (OtherException "Invalid API key"));
    [vm_compute; reflexivity | reflexivity | left; reflexivity].
Defined.

Lemma X18_witness :
  let args := demo_args (Some "key") (Some "/tmp/out") "user" false in
  let r := run demo_sanitize
             (demo_world (inl KeyboardInterrupt) (inr demo_df)) args
             (demo_state []) in
  fst r = Exit 0
  /\ last (st_log (snd r)) = Some (Log INFO "Operation cancelled by user")
  /\ List.filter is_error (st_log (snd r)) = []
  /\ st_fs (snd r) = demo_fs.
Proof.
  apply (X18_interrupt_during_sync demo_sanitize
           (demo_world (inl KeyboardInterrupt) (inr demo_df))
           (demo_args (Some "key") (Some "/tmp/out") "user" false)
           (demo_state [])
           (demo_args (Some "key") (Some "/tmp/out") "user" false)
           (demo_state []));
    [vm_compute; reflexivity | repeat split | left; reflexivity].
Defined.

End Instances.
